(** * django-fallback-storage: the fallback dispatcher of [FallbackStorage]

    A shallow embedding of [fallback_storage/storage.py].  Storage backends
    are external objects: a backend is a record of optional methods (a
    missing field is a missing attribute, what [hasattr] tests), every
    method is a function of the outside world that either returns or
    raises, and leaves a new world behind in both cases.  The facade threads
    that world, together with the log of [logger.exception], through the
    backends in configuration order. *)

From Stdlib Require Import List String Ascii ZArith Bool Lia DecimalString Permutation.
Import ListNotations.
Local Open Scope string_scope.

Set Implicit Arguments.

(** ** Python values the dispatcher looks at *)

(** A backend identifier, the element of [FALLBACK_STORAGES]: normally the
    dotted path of a class, but any hashable value can stand in the list and
    be used as a key of the [exceptions] dictionary. *)
Inductive ident : Type :=
| IStr (s : string)
| IInt (z : Z).

Definition ident_eqb (a b : ident) : bool :=
  match a, b with
  | IStr s, IStr t => String.eqb s t
  | IInt x, IInt y => Z.eqb x y
  | _, _ => false
  end.

(** [str(z)] for an integer. *)
Definition str_of_Z (z : Z) : string := NilZero.string_of_int (Z.to_int z).

(** [str(k)], what ["{0}".format(k)] prints for an identifier. *)
Definition ident_str (k : ident) : string :=
  match k with
  | IStr s => s
  | IInt z => str_of_Z z
  end.

(** Exception classes: the ones the module raises itself or lets Python
    raise, and [BackendError] for whatever class a backend raises.  All of
    them derive from [Exception]; only [AttributeError] is ever tested for
    by class. *)
Inductive exn_class : Type :=
| KeyError
| IndexError
| AttributeError
| AssertionError
| StopIteration
| ImproperlyConfigured
| PlainException
| BackendError (cls : string).

(** An exception instance: its class and [str(e)]. *)
Record exn : Type := mk_exn { exn_cls : exn_class; exn_str : string }.

Definition is_AttributeError (e : exn) : bool :=
  match exn_cls e with
  | AttributeError => true
  | _ => false
  end.

(** [KeyError(k)]: its [str] is the [repr] of the key. *)
Definition KeyError_of (k : ident) : exn :=
  mk_exn KeyError
    match k with
    | IStr s => "'" ++ s ++ "'"
    | IInt z => str_of_Z z
    end.

Inductive result (A : Type) : Type :=
| Return (a : A)
| Raise (e : exn).
Arguments Return {A} a.
Arguments Raise {A} e.

(** ** The [exceptions] dictionary

    A Python [dict] keeps its keys in insertion order, and assigning to a
    key that is already there replaces the value in place. *)
Definition dict : Type := list (ident * exn).

Fixpoint dict_set (k : ident) (v : exn) (d : dict) : dict :=
  match d with
  | [] => [(k, v)]
  | (k', v') :: rest =>
      if ident_eqb k k' then (k', v) :: rest
      else (k', v') :: dict_set k v rest
  end.

Fixpoint dict_get (k : ident) (d : dict) : option exn :=
  match d with
  | [] => None
  | (k', v') :: rest => if ident_eqb k k' then Some v' else dict_get k rest
  end.

Definition dict_len (d : dict) : nat := List.length d.

(** Truth value of a dictionary: [if exceptions:]. *)
Definition dict_bool (d : dict) : bool :=
  match d with
  | [] => false
  | _ :: _ => true
  end.

(** ['\n'.join(parts)] *)
Definition newline : string := String (ascii_of_nat 10) EmptyString.

Fixpoint join (sep : string) (parts : list string) : string :=
  match parts with
  | [] => ""
  | [p] => p
  | p :: rest => p ++ sep ++ join sep rest
  end.

(** [concatenate_exceptions], lines 14-17.  [items()] yields (key, value)
    pairs, here (identifier, exception); the loop unpacks each pair into
    [e, b], so [e] is bound to the identifier and [b] to the exception, and
    the line printed is [format(b, e)]. *)
Definition concatenate_exceptions (exceptions : dict) : string :=
  join newline
    (map (fun item : ident * exn =>
            let '(e, b) := item in exn_str b ++ ": " ++ ident_str e)
         exceptions).

Section Facade.

(** The state of everything outside the facade: the backends' files. *)
Variable world : Type.

(** What a backend call does: it returns or raises, and the world goes on
    from where the call left it. *)
Definition action (A : Type) : Type := world -> result A * world.

(** ** Files *)

(** File objects: what a backend's [open] hands out, the [ContentFile] the
    facade builds from bytes already read, and the [BytesIO] it passes to
    [save].  A backend file has its own truth value ([File.__bool__]) and a
    [read()] that touches the backend. *)
Inductive fileobj : Type :=
| BackendFile (name : string) (truth : bool) (read : action string)
| ContentFile (content : string) (name : string)
| BytesIO (content : string).

Definition file_bool (f : fileobj) : bool :=
  match f with
  | BackendFile _ truth _ => truth
  | ContentFile _ _ => true
  | BytesIO _ => true
  end.

Definition file_read (f : fileobj) : action string :=
  match f with
  | BackendFile _ _ read => read
  | ContentFile content _ => fun w => (Return content, w)
  | BytesIO content => fun w => (Return content, w)
  end.

(** Truth value of what [open] returned: [None] or a file. *)
Definition opened_bool (r : option fileobj) : bool :=
  match r with
  | None => false
  | Some f => file_bool f
  end.

(** ** Backends *)

(** The capability surface.  [None] in a field: the backend object has no
    such attribute.  [open] takes the mode as an optional argument, absent
    when the caller leaves the backend's default in force. *)
Record Backend : Type := {
  b_open : option (string -> option string -> action (option fileobj));
  b__open : option (string -> option string -> action (option fileobj));
  b_save : option (string -> fileobj -> action string);
  b__save : option (string -> fileobj -> action string);
  b_delete : option (string -> action unit);
  b_size : option (string -> action Z);
  b_accessed_time : option (string -> action Z);
  b_created_time : option (string -> action Z);
  b_modified_time : option (string -> action Z);
  b_get_valid_name : option (string -> action string);
  b_get_available_name : option (string -> action string);
  b_path : option (string -> action string);
  b_exists : option (string -> action bool);
  b_listdir : option (string -> action (list string * list string));
  b_url : option (string -> action string)
}.

(** [get_storage_class(backend_class)()]: the backend object an identifier
    stands for.  Importing and instantiating are Django's and assumed to
    succeed. *)
Variable get_storage_class : ident -> Backend.

(** ** The dispatcher's monad: world, log, exceptions *)

Record state : Type := mk_state { st_world : world; st_log : list string }.

Definition M (A : Type) : Type := state -> result A * state.

Definition ret {A} (a : A) : M A := fun st => (Return a, st).

Definition raise {A} (e : exn) : M A := fun st => (Raise e, st).

Definition bind {A B} (m : M A) (k : A -> M B) : M B :=
  fun st =>
    match m st with
    | (Return a, st') => k a st'
    | (Raise e, st') => (Raise e, st')
    end.

(** [try: ... except Exception as e:] around a computation. *)
Definition attempt {A} (m : M A) : M (result A) :=
  fun st => let '(r, st') := m st in (Return r, st').

(** A call into a backend. *)
Definition call {A} (a : action A) : M A :=
  fun st =>
    let '(r, w') := a (st_world st) in
    (r, mk_state w' (st_log st)).

(** [logger.exception(message)] *)
Definition logger_exception (message : string) : M unit :=
  fun st => (Return tt, mk_state (st_world st) (st_log st ++ [message])%list).

Notation "x <- c ;; k" := (bind c (fun x => k))
  (at level 100, c at next level, right associativity).
Notation "c ;;; k" := (bind c (fun _ => k))
  (at level 100, right associativity).

(** ** The facade *)

Record FallbackStorage : Type := {
  backend_classes : list ident;
  in_data_migration : bool
}.

(** The two settings [__init__] reads; [None]: the setting is not defined. *)
Record Settings : Type := {
  FALLBACK_STORAGES : option (list ident);
  FALLBACK_DATA_MIGRATION : option bool
}.

(** [__init__], lines 48-57.  [assert settings.FALLBACK_STORAGES] raises
    [AttributeError] on a missing setting and [AssertionError] on an empty
    list (assertions are taken to be enabled); both are turned into
    [ImproperlyConfigured]. *)
Definition init (settings : Settings) (backends : option (list ident))
  : result FallbackStorage :=
  let in_migration :=
    match FALLBACK_DATA_MIGRATION settings with
    | Some b => b
    | None => false
    end in
  match backends with
  | None =>
      match FALLBACK_STORAGES settings with
      | Some (b :: bs) =>
          Return {| backend_classes := b :: bs; in_data_migration := in_migration |}
      | Some [] | None =>
          Raise (mk_exn ImproperlyConfigured
                   "The setting `FALLBACK_STORAGES` is either missing or empty")
      end
  | Some backends =>
      Return {| backend_classes := backends; in_data_migration := in_migration |}
  end.

(** [get_backends], lines 59-62. *)
Definition get_backends (self : FallbackStorage) : list (ident * Backend) :=
  map (fun backend_class => (backend_class, get_storage_class backend_class))
      (backend_classes self).

(** [get_backend_methods], lines 68-71; [attr] is the attribute looked up
    by [hasattr] and [getattr]. *)
Definition get_backend_methods {T} (self : FallbackStorage)
    (attr : Backend -> option T) : list (ident * T) :=
  flat_map (fun cb : ident * Backend =>
              match attr (snd cb) with
              | Some backend_method => [(fst cb, backend_method)]
              | None => []
              end)
           (get_backends self).

(** The ending every dispatcher shares once [exceptions] is not empty
    (lines 36-38, 102-104, 125-127, 149-151, 194-196): [exceptions[0]]
    looks the key [0] up in the dictionary. *)
Definition raise_exceptions {A} (exceptions : dict) : M A :=
  if Nat.eqb (dict_len exceptions) 1 then
    match dict_get (IInt 0) exceptions with
    | Some e => raise e
    | None => raise (KeyError_of (IInt 0))
    end
  else raise (mk_exn PlainException (concatenate_exceptions exceptions)).

(** The loop of [fallback_method], lines 28-33: [inl] when a backend
    returned, [inr] with the dictionary when the loop ran out. *)
Fixpoint fallback_loop {T A} (args : T -> action A)
    (methods : list (ident * T)) (exceptions : dict) : M (A + dict) :=
  match methods with
  | [] => ret (inr exceptions)
  | (backend_class, backend_method) :: rest =>
      r <- attempt (call (args backend_method)) ;;
      match r with
      | Return v => ret (inl v)
      | Raise e => fallback_loop args rest (dict_set backend_class e exceptions)
      end
  end.

(** [fallback_method(method_name)], lines 20-44; [args] applies a backend
    method to the caller's arguments. *)
Definition fallback_method {T A} (method_name : string)
    (attr : Backend -> option T) (self : FallbackStorage)
    (args : T -> action A) : M A :=
  r <- fallback_loop args (get_backend_methods self attr) [] ;;
  match r with
  | inl v => ret v
  | inr exceptions =>
      if dict_bool exceptions then raise_exceptions exceptions
      else raise (mk_exn AttributeError
                    ("No backend has the method `" ++ method_name ++ "`"))
  end.

(** *** Policy A: the methods built by [fallback_method], lines 74-87 *)

Definition _open (self : FallbackStorage) (name mode : string) : M (option fileobj) :=
  fallback_method "_open" b__open self (fun m => m name (Some mode)).

Definition _save (self : FallbackStorage) (name : string) (content : fileobj) : M string :=
  fallback_method "_save" b__save self (fun m => m name content).

Definition delete (self : FallbackStorage) (name : string) : M unit :=
  fallback_method "delete" b_delete self (fun m => m name).

Definition size (self : FallbackStorage) (name : string) : M Z :=
  fallback_method "size" b_size self (fun m => m name).

Definition accessed_time (self : FallbackStorage) (name : string) : M Z :=
  fallback_method "accessed_time" b_accessed_time self (fun m => m name).

Definition created_time (self : FallbackStorage) (name : string) : M Z :=
  fallback_method "created_time" b_created_time self (fun m => m name).

Definition modified_time (self : FallbackStorage) (name : string) : M Z :=
  fallback_method "modified_time" b_modified_time self (fun m => m name).

Definition get_valid_name (self : FallbackStorage) (name : string) : M string :=
  fallback_method "get_valid_name" b_get_valid_name self (fun m => m name).

Definition get_available_name (self : FallbackStorage) (name : string) : M string :=
  fallback_method "get_available_name" b_get_available_name self (fun m => m name).

Definition path (self : FallbackStorage) (name : string) : M string :=
  fallback_method "path" b_path self (fun m => m name).

(** *** Policy B: [exists], lines 89-106 *)

Fixpoint exists_loop (name : string)
    (methods : list (ident * (string -> action bool))) (exceptions : dict)
  : M (bool + dict) :=
  match methods with
  | [] => ret (inr exceptions)
  | (backend_class, backend_method) :: rest =>
      r <- attempt (call (backend_method name)) ;;
      match r with
      | Return true => ret (inl true)
      | Return false => exists_loop name rest exceptions
      | Raise e => exists_loop name rest (dict_set backend_class e exceptions)
      end
  end.

Definition exists_ (self : FallbackStorage) (name : string) : M bool :=
  r <- exists_loop name (get_backend_methods self b_exists) [] ;;
  match r with
  | inl b => ret b
  | inr exceptions =>
      if dict_bool exceptions then raise_exceptions exceptions
      else ret false
  end.

(** *** Policy C: [listdir], lines 108-129 *)

Fixpoint listdir_loop (path : string)
    (methods : list (ident * (string -> action (list string * list string))))
    (exceptions : dict) (directories files : list string)
  : M (dict * (list string * list string)) :=
  match methods with
  | [] => ret (exceptions, (directories, files))
  | (backend_class, backend_method) :: rest =>
      r <- attempt (call (backend_method path)) ;;
      match r with
      | Return (dirs, files_) =>
          listdir_loop path rest exceptions
            (directories ++ dirs)%list (files ++ files_)%list
      | Raise e =>
          listdir_loop path rest (dict_set backend_class e exceptions)
            directories files
      end
  end.

(** [any(l)] on a list of strings: some entry is not the empty string. *)
Definition any (l : list string) : bool :=
  existsb (fun s => negb (String.eqb s "")) l.

Definition listdir (self : FallbackStorage) (path : string)
  : M (list string * list string) :=
  r <- listdir_loop path (get_backend_methods self b_listdir) [] [] [] ;;
  let '(exceptions, (directories, files)) := r in
  if (any directories || any files) || negb (dict_bool exceptions) then
    ret (directories, files)
  else if dict_bool exceptions then raise_exceptions exceptions
  else raise (mk_exn AttributeError "No backend found with the method `listdir`").

(** *** Policy D: [url], lines 131-157 *)

(** The [AttributeError] Python raises when an attribute is looked up on an
    object that lacks it.  Its real message names the object's class; both
    places that can meet it catch it and drop the message. *)
Definition no_attribute (attr : string) : exn :=
  mk_exn AttributeError ("object has no attribute '" ++ attr ++ "'").

(** The error of line 157. *)
Definition no_url_backend : exn :=
  mk_exn AttributeError "No backend found with the method `url`".

(** The scan of lines 137-147.  The call of [backend.exists(name)] stands
    before the [try]: when it raises, the scan is over and the exception
    leaves [url]. *)
Fixpoint url_loop (name : string) (backends : list (ident * Backend))
    (exceptions : dict) : M (string + dict) :=
  match backends with
  | [] => ret (inr exceptions)
  | (backend_class, backend) :: rest =>
      match b_url backend, b_exists backend with
      | Some backend_url, Some backend_exists =>
          found <- call (backend_exists name) ;;
          if found : bool then
            r <- attempt (call (backend_url name)) ;;
            match r with
            | Return u => ret (inl u)
            | Raise e => url_loop name rest (dict_set backend_class e exceptions)
            end
          else url_loop name rest exceptions
      | _, _ => url_loop name rest exceptions
      end
  end.

(** [l[-1]] *)
Fixpoint last_item {A} (l : list A) : option A :=
  match l with
  | [] => None
  | [x] => Some x
  | _ :: rest => last_item rest
  end.

Definition url (self : FallbackStorage) (name : string) : M string :=
  if in_data_migration self then
    fallback_method "url" b_url self (fun m => m name)
  else
    r <- url_loop name (get_backends self) [] ;;
    match r with
    | inl u => ret u
    | inr exceptions =>
        if dict_bool exceptions then raise_exceptions exceptions
        else
          match last_item (backend_classes self) with
          | None => raise (mk_exn IndexError "list index out of range")
          | Some backend_class =>
              let last_backend := get_storage_class backend_class in
              r <- attempt
                     match b_url last_backend with
                     | Some last_url => call (last_url name)
                     | None => raise (no_attribute "url")
                     end ;;
              match r with
              | Return u => ret u
              | Raise e =>
                  if is_AttributeError e then raise no_url_backend
                  else raise e
              end
          end
    end.

(** *** Policy E: [open] in migration mode, lines 159-213 *)

(** [get_primary_backend], lines 64-66: [next] on the generator raises
    [StopIteration] when there is no backend. *)
Definition get_primary_backend (self : FallbackStorage) : M Backend :=
  match get_backends self with
  | [] => raise (mk_exn StopIteration "")
  | (backend_class, backend) :: _ => ret backend
  end.

(** The message of lines 212-213. *)
Definition promotion_failed (name : string) : string :=
  "Unable to save file into the primary backend when fetched from other backend. Name='"
    ++ name ++ "'".

(** [__save_to_primary_backend], lines 202-213: the name [save] returned,
    or [None] after logging. *)
Definition save_to_primary_backend (self : FallbackStorage) (name : string)
    (file_obj : fileobj) : M (option string) :=
  r <- attempt
         (backend <- get_primary_backend self ;;
          match b_save backend with
          | Some save => call (save name file_obj)
          | None => raise (no_attribute "save")
          end) ;;
  match r with
  | Return stored => ret (Some stored)
  | Raise e =>
      logger_exception (promotion_failed name) ;;;
      ret None
  end.

(** The loop of lines 164-191.  [i] counts the methods [enumerate] has
    handed out, that is the backends that have an [open]; [result] is the
    loop's variable of that name.  The two places of the [try] body that can
    raise are the call of the backend and [result.read()];
    [__save_to_primary_backend] catches whatever happens inside it. *)
Fixpoint open_loop (self : FallbackStorage) (name mode : string) (i : nat)
    (methods : list (ident * (string -> option string -> action (option fileobj))))
    (exceptions : dict) (result : option fileobj)
  : M (option fileobj + dict * option fileobj) :=
  match methods with
  | [] => ret (inr (exceptions, result))
  | (backend_class, backend_method) :: rest =>
      r <- attempt (call (backend_method name (Some mode))) ;;
      match r with
      | Raise e =>
          open_loop self name mode (S i) rest
            (dict_set backend_class e exceptions) result
      | Return None => open_loop self name mode (S i) rest exceptions None
      | Return (Some f) =>
          if file_bool f then
            if in_data_migration self && (0 <? i)%nat then
              if String.eqb mode "rb" || String.eqb mode "br" then
                c <- attempt (call (file_read f)) ;;
                match c with
                | Raise e =>
                    open_loop self name mode (S i) rest
                      (dict_set backend_class e exceptions) (Some f)
                | Return content =>
                    save_to_primary_backend self name (BytesIO content) ;;;
                    ret (inl (Some (ContentFile content name)))
                end
              else
                s <- attempt (call (backend_method name None)) ;;
                match s with
                | Return (Some second_result) =>
                    if file_bool second_result then
                      save_to_primary_backend self name second_result ;;;
                      ret (inl (Some f))
                    else ret (inl (Some f))
                | Return None => ret (inl (Some f))
                | Raise e =>
                    logger_exception
                      ("Unable to save file into the primary backend when fetched from other backend. Mode='"
                         ++ mode ++ "', name='" ++ name ++ "'") ;;;
                    ret (inl (Some f))
                end
            else ret (inl (Some f))
          else open_loop self name mode (S i) rest exceptions (Some f)
      end
  end.

Definition open (self : FallbackStorage) (name mode : string)
  : M (option fileobj) :=
  if in_data_migration self then
    r <- open_loop self name mode 0 (get_backend_methods self b_open) [] None ;;
    match r with
    | inl v => ret v
    | inr (exceptions, result) =>
        if dict_bool exceptions then raise_exceptions exceptions
        else ret result
    end
  else
    fallback_method "open" b_open self (fun m => m name (Some mode)).

(** ** Observing a dispatch

    What the backends answer when their methods are called one after the
    other, each in the world the one before left behind. *)

Fixpoint invoke_all {T A} (args : T -> action A) (methods : list (ident * T))
    (w : world) : list (ident * result A) * world :=
  match methods with
  | [] => ([], w)
  | (backend_class, backend_method) :: rest =>
      let '(r, w1) := args backend_method w in
      let '(outs, w2) := invoke_all args rest w1 in
      ((backend_class, r) :: outs, w2)
  end.

(** The calls that raised, with the identifier of the backend. *)
Fixpoint failures {A} (outs : list (ident * result A)) : list (ident * exn) :=
  match outs with
  | [] => []
  | (backend_class, Raise e) :: rest => (backend_class, e) :: failures rest
  | (_, Return _) :: rest => failures rest
  end.

Definition raised {A} (out : ident * result A) : Prop :=
  exists e, snd out = Raise e.

(** [open] did not find the name: it raised, or returned something false. *)
Definition not_found (out : ident * result (option fileobj)) : Prop :=
  match snd out with
  | Raise _ => True
  | Return r => opened_bool r = false
  end.

(** [open] answered, and with something false: [None] or a false file. *)
Definition answered_false (out : ident * result (option fileobj)) : Prop :=
  exists r, snd out = Return r /\ opened_bool r = false.

(** What the last call of [open] returned; [initial] when there was no
    call (or when the last call raised). *)
Definition last_answer (initial : option fileobj)
    (outs : list (ident * result (option fileobj))) : option fileobj :=
  match last_item outs with
  | Some (_, Return r) => r
  | _ => initial
  end.

(** A scan of [url] outside migration that runs out: the backends it goes
    through, the world before, the failures of [backend.url(name)] in the
    order they came, the world after.  A backend without [url] or [exists],
    or whose [exists(name)] is false, leaves no trace. *)
Inductive url_scan (name : string)
  : list (ident * Backend) -> world -> list (ident * exn) -> world -> Prop :=
| url_scan_done w : url_scan name [] w [] w
| url_scan_incapable backend_class backend rest w fs w' :
    b_url backend = None \/ b_exists backend = None ->
    url_scan name rest w fs w' ->
    url_scan name ((backend_class, backend) :: rest) w fs w'
| url_scan_absent backend_class backend backend_url backend_exists rest w w1 fs w' :
    b_url backend = Some backend_url ->
    b_exists backend = Some backend_exists ->
    backend_exists name w = (Return false, w1) ->
    url_scan name rest w1 fs w' ->
    url_scan name ((backend_class, backend) :: rest) w fs w'
| url_scan_failed backend_class backend backend_url backend_exists e rest
                  w w1 w2 fs w' :
    b_url backend = Some backend_url ->
    b_exists backend = Some backend_exists ->
    backend_exists name w = (Return true, w1) ->
    backend_url name w1 = (Raise e, w2) ->
    url_scan name rest w2 fs w' ->
    url_scan name ((backend_class, backend) :: rest) w ((backend_class, e) :: fs) w'.

(** A scan of [open] in migration mode that runs out, from position [i] on:
    a backend raises, or returns something false, or (after the first
    position, in a plain read mode) returns a file whose [read()] raises. *)
Inductive open_scan (self : FallbackStorage) (name mode : string)
  : nat -> list (ident * (string -> option string -> action (option fileobj)))
    -> world -> list (ident * exn) -> world -> Prop :=
| open_scan_done i w : open_scan self name mode i [] w [] w
| open_scan_raised i backend_class backend_method e rest w w1 fs w' :
    backend_method name (Some mode) w = (Raise e, w1) ->
    open_scan self name mode (S i) rest w1 fs w' ->
    open_scan self name mode i ((backend_class, backend_method) :: rest) w
      ((backend_class, e) :: fs) w'
| open_scan_false i backend_class backend_method r rest w w1 fs w' :
    backend_method name (Some mode) w = (Return r, w1) ->
    opened_bool r = false ->
    open_scan self name mode (S i) rest w1 fs w' ->
    open_scan self name mode i ((backend_class, backend_method) :: rest) w fs w'
| open_scan_unreadable i backend_class backend_method f e rest w w1 w2 fs w' :
    in_data_migration self = true ->
    (0 < i)%nat ->
    mode = "rb" \/ mode = "br" ->
    backend_method name (Some mode) w = (Return (Some f), w1) ->
    file_bool f = true ->
    file_read f w1 = (Raise e, w2) ->
    open_scan self name mode (S i) rest w2 fs w' ->
    open_scan self name mode i ((backend_class, backend_method) :: rest) w
      ((backend_class, e) :: fs) w'.

End Facade.

Arguments ret {world A} a.
Arguments raise {world A} e.
Arguments ContentFile {world} content name.
Arguments BytesIO {world} content.

(** Assigning the failures to their identifiers, in the order they came. *)
Definition record_failures (fs : list (ident * exn)) (exceptions : dict) : dict :=
  fold_left (fun d (f : ident * exn) => dict_set (fst f) (snd f) d) fs exceptions.

(** What a backend's [exists] answered. *)
Definition says_true (out : ident * result bool) : Prop := snd out = Return true.
Definition says_false (out : ident * result bool) : Prop := snd out = Return false.

(** The directory names and the file names of the calls of [listdir] that
    returned, one list after the other. *)
Fixpoint listed_dirs (outs : list (ident * result (list string * list string)))
  : list string :=
  match outs with
  | [] => []
  | (_, Return (dirs, _)) :: rest => (dirs ++ listed_dirs rest)%list
  | (_, Raise _) :: rest => listed_dirs rest
  end.

Fixpoint listed_files (outs : list (ident * result (list string * list string)))
  : list string :=
  match outs with
  | [] => []
  | (_, Return (_, files_)) :: rest => (files_ ++ listed_files rest)%list
  | (_, Raise _) :: rest => listed_files rest
  end.

(** The line of [concatenate_exceptions] for one entry of the dictionary. *)
Definition failure_line (item : ident * exn) : string :=
  exn_str (snd item) ++ ": " ++ ident_str (fst item).

(** The message of lines 185-187. *)
Definition refetch_failed (mode name : string) : string :=
  "Unable to save file into the primary backend when fetched from other backend. Mode='"
    ++ mode ++ "', name='" ++ name ++ "'".

(** Does the backend have the attribute? *)
Definition has_attr {B T} (attr : B -> option T) (backend : B) : bool :=
  match attr backend with
  | Some _ => true
  | None => false
  end.

Definition ident_eq_dec (a b : ident) : {a = b} + {a <> b}.
Proof. decide equality; [apply string_dec | apply Z.eq_dec]. Defined.

(** ** Backends to run the facade on

    Two in-memory stores that persist across instantiations, as in the
    repository's test fixtures, and a few degenerate backends. *)
Module Fixture.

Definition store : Type := list (string * string).

(** The world: the files of slot 0 and of slot 1. *)
Definition disk : Type := (store * store)%type.

Definition slot_get (slot : nat) (w : disk) : store :=
  match slot with
  | O => fst w
  | _ => snd w
  end.

Definition slot_set (slot : nat) (s : store) (w : disk) : disk :=
  match slot with
  | O => (s, snd w)
  | _ => (fst w, s)
  end.

Fixpoint lookup_file (name : string) (s : store) : option string :=
  match s with
  | [] => None
  | (n, c) :: rest => if String.eqb n name then Some c else lookup_file name rest
  end.

Definition remove_file (name : string) (s : store) : store :=
  filter (fun nc => negb (String.eqb (fst nc) name)) s.

Definition not_there (name : string) : exn :=
  mk_exn (BackendError "FileNotFoundError") ("No such file: " ++ name).

Definition mem_open (slot : nat) (name : string) (mode : option string)
  : action disk (option (fileobj disk)) :=
  fun w =>
    match lookup_file name (slot_get slot w) with
    | Some c => (Return (Some (BackendFile name true (fun w' => (Return c, w')))), w)
    | None => (Raise (not_there name), w)
    end.

Definition mem_save (slot : nat) (name : string) (content : fileobj disk)
  : action disk string :=
  fun w =>
    match file_read content w with
    | (Return c, w1) =>
        (Return name, slot_set slot ((name, c) :: remove_file name (slot_get slot w1)) w1)
    | (Raise e, w1) => (Raise e, w1)
    end.

Definition mem_exists (slot : nat) (name : string) : action disk bool :=
  fun w =>
    match lookup_file name (slot_get slot w) with
    | Some _ => (Return true, w)
    | None => (Return false, w)
    end.

Definition mem_delete (slot : nat) (name : string) : action disk unit :=
  fun w => (Return tt, slot_set slot (remove_file name (slot_get slot w)) w).

Definition mem_size (slot : nat) (name : string) : action disk Z :=
  fun w =>
    match lookup_file name (slot_get slot w) with
    | Some c => (Return (Z.of_nat (String.length c)), w)
    | None => (Raise (not_there name), w)
    end.

Definition mem_listdir (slot : nat) (path : string)
  : action disk (list string * list string) :=
  fun w => (Return ([], map fst (slot_get slot w)), w).

Definition mem_url (base_url : string) (name : string) : action disk string :=
  fun w => (Return (base_url ++ name), w).

(** A backend with no attribute at all. *)
Definition bare_backend : Backend disk :=
  {| b_open := None; b__open := None; b_save := None; b__save := None;
     b_delete := None; b_size := None; b_accessed_time := None;
     b_created_time := None; b_modified_time := None;
     b_get_valid_name := None; b_get_available_name := None;
     b_path := None; b_exists := None; b_listdir := None; b_url := None |}.

(** A store with the usual methods. *)
Definition memory_backend (slot : nat) (base_url : string) : Backend disk :=
  {| b_open := Some (mem_open slot); b__open := Some (mem_open slot);
     b_save := Some (mem_save slot); b__save := Some (mem_save slot);
     b_delete := Some (mem_delete slot); b_size := Some (mem_size slot);
     b_accessed_time := None; b_created_time := None; b_modified_time := None;
     b_get_valid_name := None; b_get_available_name := None;
     b_path := None; b_exists := Some (mem_exists slot);
     b_listdir := Some (mem_listdir slot); b_url := Some (mem_url base_url) |}.

(** A store one can only write to: it has [save] and [exists], no [open]. *)
Definition drop_box (slot : nat) : Backend disk :=
  {| b_open := None; b__open := None;
     b_save := Some (mem_save slot); b__save := Some (mem_save slot);
     b_delete := None; b_size := None; b_accessed_time := None;
     b_created_time := None; b_modified_time := None;
     b_get_valid_name := None; b_get_available_name := None;
     b_path := None; b_exists := Some (mem_exists slot);
     b_listdir := None; b_url := None |}.

(** A backend whose every call fails with the same error. *)
Definition down (message : string) : exn :=
  mk_exn (BackendError "ConnectionError") message.

Definition unreachable_backend (message : string) : Backend disk :=
  {| b_open := Some (fun _ _ w => (Raise (down message), w));
     b__open := Some (fun _ _ w => (Raise (down message), w));
     b_save := Some (fun _ _ w => (Raise (down message), w));
     b__save := Some (fun _ _ w => (Raise (down message), w));
     b_delete := Some (fun _ w => (Raise (down message), w));
     b_size := Some (fun _ w => (Raise (down message), w));
     b_accessed_time := None; b_created_time := None; b_modified_time := None;
     b_get_valid_name := None; b_get_available_name := None;
     b_path := None;
     b_exists := Some (fun _ w => (Raise (down message), w));
     b_listdir := Some (fun _ w => (Raise (down message), w));
     b_url := Some (fun _ w => (Raise (down message), w)) |}.

(** A store that reads but refuses every [save]. *)
Definition read_only (slot : nat) (base_url : string) : Backend disk :=
  {| b_open := Some (mem_open slot); b__open := Some (mem_open slot);
     b_save := Some (fun _ _ w => (Raise (down "read-only"), w));
     b__save := Some (fun _ _ w => (Raise (down "read-only"), w));
     b_delete := None; b_size := Some (mem_size slot);
     b_accessed_time := None; b_created_time := None; b_modified_time := None;
     b_get_valid_name := None; b_get_available_name := None;
     b_path := None; b_exists := Some (mem_exists slot);
     b_listdir := Some (mem_listdir slot); b_url := Some (mem_url base_url) |}.

(** A store whose [url] raises the given exception. *)
Definition no_link (slot : nat) (e : exn) : Backend disk :=
  {| b_open := Some (mem_open slot); b__open := Some (mem_open slot);
     b_save := Some (mem_save slot); b__save := Some (mem_save slot);
     b_delete := None; b_size := None;
     b_accessed_time := None; b_created_time := None; b_modified_time := None;
     b_get_valid_name := None; b_get_available_name := None;
     b_path := None; b_exists := Some (mem_exists slot);
     b_listdir := None; b_url := Some (fun _ w => (Raise e, w)) |}.

(** A store that cannot tell whether a name exists: [exists] raises, the
    other methods work. *)
Definition cannot_stat : exn := mk_exn (BackendError "OSError") "cannot stat".

Definition flaky_exists (slot : nat) (base_url : string) : Backend disk :=
  {| b_open := Some (mem_open slot); b__open := Some (mem_open slot);
     b_save := Some (mem_save slot); b__save := Some (mem_save slot);
     b_delete := None; b_size := None;
     b_accessed_time := None; b_created_time := None; b_modified_time := None;
     b_get_valid_name := None; b_get_available_name := None;
     b_path := None; b_exists := Some (fun _ w => (Raise cannot_stat, w));
     b_listdir := None; b_url := Some (mem_url base_url) |}.

(** The classes the identifiers of the examples stand for. *)
Definition get_storage_class (backend_class : ident) : Backend disk :=
  match backend_class with
  | IStr s =>
      if String.eqb s "inmemory" then memory_backend 0 "http://www.example.com/media/"
      else if String.eqb s "filesystem" then memory_backend 1 "/media/"
      else if String.eqb s "dropbox" then drop_box 0
      else if String.eqb s "readonly" then read_only 0 "http://www.example.com/media/"
      else if String.eqb s "nolink" then no_link 1 (down "signing failed")
      else if String.eqb s "flaky" then flaky_exists 0 "http://www.example.com/media/"
      else if String.eqb s "a" then unreachable_backend "x"
      else if String.eqb s "b" then unreachable_backend "y"
      else bare_backend
  | IInt _ => bare_backend
  end.

(** The disk of the migration test: slot 0 holds bar.txt, slot 1 foo.txt. *)
Definition disk0 : disk :=
  ([("bar.txt", "test-bar")], [("foo.txt", "test-foo")]).

Definition start (w : disk) : state disk := mk_state w [].

(** Settings that define neither [FALLBACK_STORAGES] nor
    [FALLBACK_DATA_MIGRATION]. *)
Definition no_settings : Settings :=
  {| FALLBACK_STORAGES := None; FALLBACK_DATA_MIGRATION := None |}.

Definition storage (backends : list ident) (migrating : bool) : FallbackStorage :=
  {| backend_classes := backends; in_data_migration := migrating |}.

(** A disk with nothing on it. *)
Definition empty_disk : disk := ([], []).

(** A store whose [open] answers [None] for a name it does not have. *)
Definition quiet_open (slot : nat) (name : string) (mode : option string)
  : action disk (option (fileobj disk)) :=
  fun w =>
    match lookup_file name (slot_get slot w) with
    | Some c => (Return (Some (BackendFile name true (fun w' => (Return c, w')))), w)
    | None => (Return None, w)
    end.

Definition quiet_backend (slot : nat) : Backend disk :=
  {| b_open := Some (quiet_open slot); b__open := Some (quiet_open slot);
     b_save := Some (mem_save slot); b__save := Some (mem_save slot);
     b_delete := None; b_size := None;
     b_accessed_time := None; b_created_time := None; b_modified_time := None;
     b_get_valid_name := None; b_get_available_name := None;
     b_path := None; b_exists := Some (mem_exists slot);
     b_listdir := Some (mem_listdir slot); b_url := None |}.

(** A store that opens every name but whose files cannot be read. *)
Definition scratched : exn := mk_exn (BackendError "IOError") "read error".

Definition scratched_backend : Backend disk :=
  {| b_open := Some (fun name _ w =>
                       (Return (Some (BackendFile name true
                                        (fun w' => (Raise scratched, w')))), w));
     b__open := None; b_save := None; b__save := None;
     b_delete := None; b_size := None;
     b_accessed_time := None; b_created_time := None; b_modified_time := None;
     b_get_valid_name := None; b_get_available_name := None;
     b_path := None; b_exists := None; b_listdir := None; b_url := None |}.

(** The classes above, and two more identifiers. *)
Definition get_storage_class' (backend_class : ident) : Backend disk :=
  match backend_class with
  | IStr s =>
      if String.eqb s "quiet0" then quiet_backend 0
      else if String.eqb s "quiet1" then quiet_backend 1
      else if String.eqb s "scratched" then scratched_backend
      else get_storage_class backend_class
  | IInt _ => get_storage_class backend_class
  end.

(** A store whose [open] answers every name with a false file (a file
    without a name), never read. *)
Definition blank_file : fileobj disk :=
  BackendFile "" false (fun w => (Return "", w)).

Definition blank_backend : Backend disk :=
  {| b_open := Some (fun _ _ w => (Return (Some blank_file), w));
     b__open := None; b_save := None; b__save := None;
     b_delete := None; b_size := None;
     b_accessed_time := None; b_created_time := None; b_modified_time := None;
     b_get_valid_name := None; b_get_available_name := None;
     b_path := None; b_exists := None; b_listdir := None; b_url := None |}.

(** The classes above, and one more identifier. *)
Definition get_storage_class'' (backend_class : ident) : Backend disk :=
  match backend_class with
  | IStr s =>
      if String.eqb s "blank" then blank_backend
      else get_storage_class' backend_class
  | IInt _ => get_storage_class' backend_class
  end.

End Fixture.

(** * Properties *)

(** ** The dictionary *)

Lemma ident_eqb_eq (a b : ident) : ident_eqb a b = true <-> a = b.
Proof.
  destruct a as [s|x], b as [t|y]; simpl.
  - rewrite String.eqb_eq. split; congruence.
  - split; discriminate.
  - split; discriminate.
  - rewrite Z.eqb_eq. split; congruence.
Qed.

Lemma ident_eqb_refl (a : ident) : ident_eqb a a = true.
Proof. now apply ident_eqb_eq. Qed.

Lemma ident_eqb_neq (a b : ident) : a <> b -> ident_eqb a b = false.
Proof.
  intros Hne. destruct (ident_eqb a b) eqn:E; [|reflexivity].
  apply ident_eqb_eq in E. contradiction.
Qed.

Lemma dict_get_set_eq (k : ident) (v : exn) (d : dict) :
  dict_get k (dict_set k v d) = Some v.
Proof.
  induction d as [|[k' v'] d IH]; simpl.
  - now rewrite ident_eqb_refl.
  - destruct (ident_eqb k k') eqn:E; simpl; rewrite E; [reflexivity|exact IH].
Qed.

Lemma dict_get_set_neq (k k' : ident) (v : exn) (d : dict) :
  k <> k' -> dict_get k' (dict_set k v d) = dict_get k' d.
Proof.
  intros Hne. induction d as [|[k0 v0] d IH]; simpl.
  - rewrite ident_eqb_neq; [reflexivity|congruence].
  - destruct (ident_eqb k k0) eqn:E; simpl.
    + apply ident_eqb_eq in E. subst k0.
      now rewrite (ident_eqb_neq (a:=k') (b:=k)) by congruence.
    + now rewrite IH.
Qed.

Lemma dict_set_keys (k : ident) (v : exn) (d : dict) :
  map fst (dict_set k v d) =
  if in_dec ident_eq_dec k (map fst d) then map fst d
  else (map fst d ++ [k])%list.
Proof.
  induction d as [|[k0 v0] d IH]; simpl; [reflexivity|].
  destruct (ident_eqb k k0) eqn:E.
  - apply ident_eqb_eq in E. subst k0. simpl.
    destruct (ident_eq_dec k k); [reflexivity|congruence].
  - simpl. rewrite IH.
    destruct (ident_eq_dec k0 k) as [->|Hne].
    + now rewrite ident_eqb_refl in E.
    + destruct (in_dec ident_eq_dec k (map fst d)); reflexivity.
Qed.

Lemma dict_set_In (k k' : ident) (v : exn) (d : dict) :
  In k' (map fst (dict_set k v d)) <-> k' = k \/ In k' (map fst d).
Proof.
  rewrite dict_set_keys.
  destruct (in_dec ident_eq_dec k (map fst d)) as [Hin|Hnin].
  - split; [now right|]. intros [->|H]; assumption.
  - rewrite in_app_iff. simpl. intuition congruence.
Qed.

Lemma dict_set_NoDup (k : ident) (v : exn) (d : dict) :
  NoDup (map fst d) -> NoDup (map fst (dict_set k v d)).
Proof.
  intros Hnd. rewrite dict_set_keys.
  destruct (in_dec ident_eq_dec k (map fst d)) as [Hin|Hnin]; [assumption|].
  apply NoDup_app; [assumption|repeat constructor; intros []|].
  intros x Hx [<-|[]]. contradiction.
Qed.

Lemma dict_set_not_empty (k : ident) (v : exn) (d : dict) :
  dict_bool (dict_set k v d) = true.
Proof.
  destruct d as [|[k' v'] d]; simpl; [reflexivity|].
  now destruct (ident_eqb k k').
Qed.

Lemma record_failures_app (fs gs : list (ident * exn)) (d : dict) :
  record_failures (fs ++ gs) d = record_failures gs (record_failures fs d).
Proof. unfold record_failures. apply fold_left_app. Qed.

Lemma record_failures_get_other (k : ident) (fs : list (ident * exn)) :
  forall d, ~ In k (map fst fs) ->
  dict_get k (record_failures fs d) = dict_get k d.
Proof.
  induction fs as [|[k' e'] fs IH]; intros d Hnin; simpl; [reflexivity|].
  simpl in Hnin. unfold record_failures in *. simpl.
  rewrite IH by tauto. apply dict_get_set_neq. tauto.
Qed.

Lemma record_failures_In (k : ident) (fs : list (ident * exn)) :
  forall d, In k (map fst (record_failures fs d)) <->
            In k (map fst d) \/ In k (map fst fs).
Proof.
  induction fs as [|[k' e'] fs IH]; intros d; simpl; [tauto|].
  unfold record_failures in *. simpl. rewrite IH, dict_set_In.
  intuition congruence.
Qed.

Lemma record_failures_NoDup (fs : list (ident * exn)) :
  forall d, NoDup (map fst d) -> NoDup (map fst (record_failures fs d)).
Proof.
  induction fs as [|[k' e'] fs IH]; intros d Hnd; simpl; [assumption|].
  unfold record_failures in *. simpl. apply IH. now apply dict_set_NoDup.
Qed.

Lemma record_failures_len (fs : list (ident * exn)) :
  dict_len (record_failures fs []) =
  List.length (nodup ident_eq_dec (map fst fs)).
Proof.
  unfold dict_len. rewrite <- (length_map fst).
  apply Permutation_length, NoDup_Permutation.
  - apply record_failures_NoDup. constructor.
  - apply NoDup_nodup.
  - intros k. rewrite record_failures_In, nodup_In. simpl. tauto.
Qed.

Lemma record_failures_not_empty (fs : list (ident * exn)) :
  forall d, dict_bool d = true -> dict_bool (record_failures fs d) = true.
Proof.
  induction fs as [|[k e] fs IH]; intros d Hd; simpl; [assumption|].
  unfold record_failures in *. simpl. apply IH, dict_set_not_empty.
Qed.

Lemma record_failures_one_not_empty (k : ident) (e : exn)
    (fs : list (ident * exn)) (d : dict) :
  dict_bool (record_failures ((k, e) :: fs) d) = true.
Proof.
  change (record_failures ((k, e) :: fs) d)
    with (record_failures fs (dict_set k e d)).
  apply record_failures_not_empty, dict_set_not_empty.
Qed.

(** ** The dispatchers *)

Section Dispatch.

Variable world : Type.
Variable get_storage_class : ident -> Backend world.

Ltac run := unfold bind, attempt, call, ret, raise; simpl.

Lemma state_eta (st : state world) : mk_state (st_world st) (st_log st) = st.
Proof. now destruct st. Qed.

Lemma raise_exceptions_raises A (exceptions : dict) (st : state world) :
  exists e, @raise_exceptions world A exceptions st = (Raise e, st).
Proof.
  unfold raise_exceptions.
  destruct (Nat.eqb (dict_len exceptions) 1).
  - destruct (dict_get (IInt 0) exceptions); eexists; reflexivity.
  - eexists; reflexivity.
Qed.

Lemma failures_all_raised A (outs : list (ident * result A)) :
  Forall (@raised A) outs -> List.length (failures outs) = List.length outs.
Proof.
  induction 1 as [|[k r] outs [e He] _ IH]; simpl in *; [reflexivity|].
  subst r. simpl. now rewrite IH.
Qed.

(** A run of failing backends only fills the dictionary. *)
Lemma fallback_loop_raised T A (args : T -> action world A)
    (pre : list (ident * T)) :
  forall exceptions st outs w1 rest,
    invoke_all args pre (st_world st) = (outs, w1) ->
    Forall (@raised A) outs ->
    fallback_loop args (pre ++ rest) exceptions st =
    fallback_loop args rest (record_failures (failures outs) exceptions)
      (mk_state w1 (st_log st)).
Proof.
  induction pre as [|[k m] pre IH]; intros exceptions st outs w1 rest Hinv Hall;
    simpl in *.
  - injection Hinv as <- <-. simpl. now rewrite state_eta.
  - destruct (args m (st_world st)) as [r w'] eqn:Hm.
    destruct (invoke_all args pre w') as [outs' w''] eqn:Hrest.
    injection Hinv as <- <-.
    inversion Hall as [|? ? [e He] Hall']; subst. simpl in He. subst r.
    run. rewrite Hm. simpl.
    now rewrite (IH _ (mk_state w' (st_log st)) outs' w'' rest Hrest Hall').
Qed.

Lemma exists_loop_raised (name : string)
    (pre : list (ident * (string -> action world bool))) :
  forall exceptions st outs w1 rest,
    invoke_all (fun m => m name) pre (st_world st) = (outs, w1) ->
    Forall (@raised bool) outs ->
    exists_loop name (pre ++ rest) exceptions st =
    exists_loop name rest (record_failures (failures outs) exceptions)
      (mk_state w1 (st_log st)).
Proof.
  induction pre as [|[k m] pre IH]; intros exceptions st outs w1 rest Hinv Hall;
    simpl in *.
  - injection Hinv as <- <-. simpl. now rewrite state_eta.
  - destruct (m name (st_world st)) as [r w'] eqn:Hm.
    destruct (invoke_all (fun m => m name) pre w') as [outs' w''] eqn:Hrest.
    injection Hinv as <- <-.
    inversion Hall as [|? ? [e He] Hall']; subst. simpl in He. subst r.
    run. rewrite Hm. simpl.
    now rewrite (IH _ (mk_state w' (st_log st)) outs' w'' rest Hrest Hall').
Qed.

Lemma listdir_loop_raised (path : string)
    (pre : list (ident * (string -> action world (list string * list string)))) :
  forall exceptions directories files st outs w1 rest,
    invoke_all (fun m => m path) pre (st_world st) = (outs, w1) ->
    Forall (@raised (list string * list string)) outs ->
    listdir_loop path (pre ++ rest) exceptions directories files st =
    listdir_loop path rest (record_failures (failures outs) exceptions)
      directories files (mk_state w1 (st_log st)).
Proof.
  induction pre as [|[k m] pre IH];
    intros exceptions directories files st outs w1 rest Hinv Hall; simpl in *.
  - injection Hinv as <- <-. simpl. now rewrite state_eta.
  - destruct (m path (st_world st)) as [r w'] eqn:Hm.
    destruct (invoke_all (fun m => m path) pre w') as [outs' w''] eqn:Hrest.
    injection Hinv as <- <-.
    inversion Hall as [|? ? [e He] Hall']; subst. simpl in He. subst r.
    run. rewrite Hm. simpl.
    now rewrite (IH _ _ _ (mk_state w' (st_log st)) outs' w'' rest Hrest Hall').
Qed.

(** C7.  Policy A: when the backends before [backend_class] all raise and
    its own call returns [v], the dispatch returns [v] in the world that
    call left behind, whatever backends stand after it (none of them is
    invoked), and none of the earlier failures reaches the caller. *)
Theorem fallback_first_success T A (method_name : string)
    (attr : Backend world -> option T) (self : FallbackStorage)
    (args : T -> action world A)
    (pre post : list (ident * T)) (backend_class : ident) (backend_method : T)
    (outs : list (ident * result A)) (v : A) (w1 w2 : world) (st : state world) :
  get_backend_methods get_storage_class self attr =
    (pre ++ (backend_class, backend_method) :: post)%list ->
  invoke_all args pre (st_world st) = (outs, w1) ->
  Forall (@raised A) outs ->
  args backend_method w1 = (Return v, w2) ->
  fallback_method get_storage_class method_name attr self args st =
    (Return v, mk_state w2 (st_log st)).
Proof.
  intros Hms Hinv Hall Hm. unfold fallback_method. rewrite Hms.
  unfold bind at 1.
  rewrite (fallback_loop_raised args pre [] st _ Hinv Hall).
  simpl. run. now rewrite Hm.
Qed.

(** *** One consulted backend, and it raises *)

Lemma raise_exceptions_single A (backend_class : ident) (e : exn)
    (st : state world) :
  backend_class <> IInt 0 ->
  @raise_exceptions world A (dict_set backend_class e []) st =
    (Raise (KeyError_of (IInt 0)), st).
Proof.
  intros Hne. unfold raise_exceptions, dict_set, dict_len, dict_get.
  rewrite (ident_eqb_neq (a:=IInt 0) (b:=backend_class)) by congruence.
  reflexivity.
Qed.

Lemma fallback_single_failure T A (method_name : string)
    (attr : Backend world -> option T) (self : FallbackStorage)
    (args : T -> action world A) (backend_class : ident) (backend_method : T)
    (e : exn) (w1 : world) (st : state world) :
  backend_class <> IInt 0 ->
  get_backend_methods get_storage_class self attr =
    [(backend_class, backend_method)] ->
  args backend_method (st_world st) = (Raise e, w1) ->
  fallback_method get_storage_class method_name attr self args st =
    (Raise (KeyError_of (IInt 0)), mk_state w1 (st_log st)).
Proof.
  intros Hne Hms Hm. unfold fallback_method. rewrite Hms. simpl.
  run. rewrite Hm. simpl.
  now apply raise_exceptions_single.
Qed.

Lemma exists_single_failure (self : FallbackStorage) (name : string)
    (backend_class : ident) (backend_method : string -> action world bool)
    (e : exn) (w1 : world) (st : state world) :
  backend_class <> IInt 0 ->
  get_backend_methods get_storage_class self (@b_exists world) =
    [(backend_class, backend_method)] ->
  backend_method name (st_world st) = (Raise e, w1) ->
  exists_ get_storage_class self name st =
    (Raise (KeyError_of (IInt 0)), mk_state w1 (st_log st)).
Proof.
  intros Hne Hms Hm. unfold exists_. rewrite Hms. simpl.
  run. rewrite Hm. simpl.
  now apply raise_exceptions_single.
Qed.

Lemma listdir_single_failure (self : FallbackStorage) (path : string)
    (backend_class : ident)
    (backend_method : string -> action world (list string * list string))
    (e : exn) (w1 : world) (st : state world) :
  backend_class <> IInt 0 ->
  get_backend_methods get_storage_class self (@b_listdir world) =
    [(backend_class, backend_method)] ->
  backend_method path (st_world st) = (Raise e, w1) ->
  listdir get_storage_class self path st =
    (Raise (KeyError_of (IInt 0)), mk_state w1 (st_log st)).
Proof.
  intros Hne Hms Hm. unfold listdir. rewrite Hms. simpl.
  run. rewrite Hm. simpl.
  now apply raise_exceptions_single.
Qed.

Lemma url_single_failure (self : FallbackStorage) (name : string)
    (backend_class : ident)
    (backend_url : string -> action world string)
    (backend_exists : string -> action world bool)
    (e : exn) (w1 w2 : world) (st : state world) :
  backend_class <> IInt 0 ->
  in_data_migration self = false ->
  backend_classes self = [backend_class] ->
  b_url (get_storage_class backend_class) = Some backend_url ->
  b_exists (get_storage_class backend_class) = Some backend_exists ->
  backend_exists name (st_world st) = (Return true, w1) ->
  backend_url name w1 = (Raise e, w2) ->
  url get_storage_class self name st =
    (Raise (KeyError_of (IInt 0)), mk_state w2 (st_log st)).
Proof.
  intros Hne Hmig Hbs Hu He Hex Hurl. unfold url, get_backends.
  rewrite Hmig, Hbs. simpl. rewrite Hu, He.
  run. rewrite Hex. simpl. rewrite Hurl. simpl.
  now apply raise_exceptions_single.
Qed.

Lemma open_single_failure (self : FallbackStorage) (name mode : string)
    (backend_class : ident)
    (backend_method : string -> option string -> action world (option (fileobj world)))
    (e : exn) (w1 : world) (st : state world) :
  backend_class <> IInt 0 ->
  in_data_migration self = true ->
  get_backend_methods get_storage_class self (@b_open world) =
    [(backend_class, backend_method)] ->
  backend_method name (Some mode) (st_world st) = (Raise e, w1) ->
  open get_storage_class self name mode st =
    (Raise (KeyError_of (IInt 0)), mk_state w1 (st_log st)).
Proof.
  intros Hne Hmig Hms Hm. unfold open. rewrite Hmig, Hms. simpl.
  run. rewrite Hm. simpl.
  now apply raise_exceptions_single.
Qed.

(** C1.  What the code does where the claim expects the backend's own
    failure: with one consulted backend, identified by anything but the
    integer 0, whose call raises [e], every dispatcher ends in
    [exceptions[0]] and raises [KeyError(0)] instead of [e] -- the methods
    made by [fallback_method] (among them [open] outside migration and [url]
    in migration), [exists], [listdir], [url] outside migration and [open]
    in migration. *)
Theorem single_failure_raises_KeyError (self : FallbackStorage)
    (backend_class : ident) (e : exn) (st : state world) :
  backend_class <> IInt 0 ->
  (forall T A (method_name : string) (attr : Backend world -> option T)
          (args : T -> action world A) (backend_method : T) (w1 : world),
      get_backend_methods get_storage_class self attr =
        [(backend_class, backend_method)] ->
      args backend_method (st_world st) = (Raise e, w1) ->
      fallback_method get_storage_class method_name attr self args st =
        (Raise (KeyError_of (IInt 0)), mk_state w1 (st_log st))) /\
  (forall name backend_method w1,
      get_backend_methods get_storage_class self (@b_exists world) =
        [(backend_class, backend_method)] ->
      backend_method name (st_world st) = (Raise e, w1) ->
      exists_ get_storage_class self name st =
        (Raise (KeyError_of (IInt 0)), mk_state w1 (st_log st))) /\
  (forall path backend_method w1,
      get_backend_methods get_storage_class self (@b_listdir world) =
        [(backend_class, backend_method)] ->
      backend_method path (st_world st) = (Raise e, w1) ->
      listdir get_storage_class self path st =
        (Raise (KeyError_of (IInt 0)), mk_state w1 (st_log st))) /\
  (forall name backend_url backend_exists w1 w2,
      in_data_migration self = false ->
      backend_classes self = [backend_class] ->
      b_url (get_storage_class backend_class) = Some backend_url ->
      b_exists (get_storage_class backend_class) = Some backend_exists ->
      backend_exists name (st_world st) = (Return true, w1) ->
      backend_url name w1 = (Raise e, w2) ->
      url get_storage_class self name st =
        (Raise (KeyError_of (IInt 0)), mk_state w2 (st_log st))) /\
  (forall name mode backend_method w1,
      in_data_migration self = true ->
      get_backend_methods get_storage_class self (@b_open world) =
        [(backend_class, backend_method)] ->
      backend_method name (Some mode) (st_world st) = (Raise e, w1) ->
      open get_storage_class self name mode st =
        (Raise (KeyError_of (IInt 0)), mk_state w1 (st_log st))).
Proof.
  intros Hne. repeat split; intros.
  - eapply fallback_single_failure; eassumption.
  - eapply exists_single_failure; eassumption.
  - eapply listdir_single_failure; eassumption.
  - eapply url_single_failure; eassumption.
  - eapply open_single_failure; eassumption.
Qed.

(** C3.  What the code prints where the claim expects "identifier: error":
    when two backends with different identifiers are consulted and both
    raise, the dispatch raises a plain [Exception] whose message has one
    line per failure, in consultation order, but each line reads
    "error: identifier". *)
Theorem aggregate_line_is_error_then_identifier T A (method_name : string)
    (attr : Backend world -> option T) (self : FallbackStorage)
    (args : T -> action world A) (k1 k2 : ident) (m1 m2 : T) (e1 e2 : exn)
    (w1 w2 : world) (st : state world) :
  k1 <> k2 ->
  get_backend_methods get_storage_class self attr = [(k1, m1); (k2, m2)] ->
  args m1 (st_world st) = (Raise e1, w1) ->
  args m2 w1 = (Raise e2, w2) ->
  fallback_method get_storage_class method_name attr self args st =
    (Raise (mk_exn PlainException
              ((exn_str e1 ++ ": " ++ ident_str k1) ++ newline
                 ++ (exn_str e2 ++ ": " ++ ident_str k2))),
     mk_state w2 (st_log st)).
Proof.
  intros Hne Hms H1 H2. unfold fallback_method. rewrite Hms.
  unfold fallback_loop, bind, attempt, call, ret.
  rewrite H1. cbn [st_world st_log]. rewrite H2.
  unfold dict_set. rewrite (ident_eqb_neq (a:=k2) (b:=k1)) by congruence.
  reflexivity.
Qed.

(** C5.  What the code does where the claim expects a capability error:
    when no backend has [listdir], the loop body never runs, [exceptions]
    stays empty, and [listdir] returns two empty lists. *)
Theorem listdir_without_support_returns_empty (self : FallbackStorage)
    (path : string) (st : state world) :
  get_backend_methods get_storage_class self (@b_listdir world) = [] ->
  listdir get_storage_class self path st = (Return ([], []), st).
Proof.
  intros Hms. unfold listdir. rewrite Hms. reflexivity.
Qed.

(** *** [exists] *)

Lemma says_true_dec (out : ident * result bool) :
  {says_true out} + {~ says_true out}.
Proof.
  unfold says_true. destruct out as [k [[|]|e]]; simpl;
    [left; reflexivity | right; discriminate | right; discriminate].
Qed.

Lemma exists_loop_true (name : string)
    (methods : list (ident * (string -> action world bool))) :
  forall exceptions st outs w1,
    invoke_all (fun m => m name) methods (st_world st) = (outs, w1) ->
    Exists says_true outs ->
    exists st', exists_loop name methods exceptions st = (Return (inl true), st').
Proof.
  induction methods as [|[k m] methods IH]; intros exceptions st outs w1 Hinv Hex;
    simpl in *.
  - injection Hinv as <- <-. inversion Hex.
  - destruct (m name (st_world st)) as [r w'] eqn:Hm.
    destruct (invoke_all (fun m => m name) methods w') as [outs' w''] eqn:Hrest.
    injection Hinv as <- <-. run. rewrite Hm. simpl.
    destruct r as [[|]|e].
    + eexists; reflexivity.
    + inversion Hex as [? ? Hhd|? ? Htl]; subst; [discriminate Hhd|].
      exact (IH exceptions (mk_state w' (st_log st)) outs' w'' Hrest Htl).
    + inversion Hex as [? ? Hhd|? ? Htl]; subst; [discriminate Hhd|].
      exact (IH _ (mk_state w' (st_log st)) outs' w'' Hrest Htl).
Qed.

(** Backends that answer false or raise only move the loop on. *)
Lemma exists_loop_no_true_app (name : string)
    (pre : list (ident * (string -> action world bool))) :
  forall exceptions st outs w1 rest,
    invoke_all (fun m => m name) pre (st_world st) = (outs, w1) ->
    ~ Exists says_true outs ->
    exists_loop name (pre ++ rest) exceptions st =
    exists_loop name rest (record_failures (failures outs) exceptions)
      (mk_state w1 (st_log st)).
Proof.
  induction pre as [|[k m] pre IH]; intros exceptions st outs w1 rest Hinv Hno;
    simpl in *.
  - injection Hinv as <- <-. simpl. now rewrite state_eta.
  - destruct (m name (st_world st)) as [r w'] eqn:Hm.
    destruct (invoke_all (fun m => m name) pre w') as [outs' w''] eqn:Hrest.
    injection Hinv as <- <-. run. rewrite Hm. simpl.
    assert (Htl : ~ Exists says_true outs')
      by (intros H; apply Hno; now apply Exists_cons_tl).
    destruct r as [[|]|e].
    + exfalso. apply Hno. now apply Exists_cons_hd.
    + exact (IH exceptions (mk_state w' (st_log st)) outs' w'' rest Hrest Htl).
    + exact (IH _ (mk_state w' (st_log st)) outs' w'' rest Hrest Htl).
Qed.

Lemma exists_loop_no_true (name : string)
    (methods : list (ident * (string -> action world bool))) :
  forall exceptions st outs w1,
    invoke_all (fun m => m name) methods (st_world st) = (outs, w1) ->
    ~ Exists says_true outs ->
    exists_loop name methods exceptions st =
      (Return (inr (record_failures (failures outs) exceptions)),
       mk_state w1 (st_log st)).
Proof.
  intros exceptions st outs w1 Hinv Hno.
  rewrite <- (app_nil_r methods).
  now rewrite (exists_loop_no_true_app name methods exceptions st [] Hinv Hno).
Qed.

Lemma no_failure_no_true_all_false (outs : list (ident * result bool)) :
  failures outs = [] -> ~ Exists says_true outs -> Forall says_false outs.
Proof.
  induction outs as [|[k r] outs IH]; intros Hf Hno; [constructor|].
  destruct r as [[|]|e]; simpl in Hf.
  - exfalso. apply Hno. now apply Exists_cons_hd.
  - constructor; [reflexivity|].
    apply IH; [assumption|]. intros H. apply Hno. now apply Exists_cons_tl.
  - discriminate.
Qed.

Lemma all_false_no_failure (outs : list (ident * result bool)) :
  Forall says_false outs -> failures outs = [] /\ ~ Exists says_true outs.
Proof.
  induction 1 as [|[k r] outs Hhd _ [IHf IHn]]; simpl.
  - split; [reflexivity|]. intros H; inversion H.
  - unfold says_false in Hhd. simpl in Hhd. subst r. split; [assumption|].
    intros H. inversion H as [? ? Hx|? ? Hx]; subst;
      [discriminate Hx | contradiction].
Qed.

(** C8.  With [outs] the answers of the backends that have [exists], each
    asked in the world the one before left behind: [exists] returns [True]
    exactly when one of them answers true (whatever the earlier ones did),
    and [False] exactly when every one of them answers false, none raising
    -- which is also the case when no backend has [exists].  And [True]
    comes as soon as it can: when the backends before one answer false or
    raise and that one answers true, [exists] returns in the world that
    answer left behind, without asking the backends after it. *)
Theorem exists_true_and_false_cases (self : FallbackStorage) (name : string)
    (st : state world) :
  let outs :=
    fst (invoke_all (fun m => m name)
           (get_backend_methods get_storage_class self (@b_exists world))
           (st_world st)) in
  (fst (exists_ get_storage_class self name st) = Return true
     <-> Exists says_true outs) /\
  (fst (exists_ get_storage_class self name st) = Return false
     <-> Forall says_false outs) /\
  (forall pre backend_class backend_method post before w1 w2,
      get_backend_methods get_storage_class self (@b_exists world) =
        (pre ++ (backend_class, backend_method) :: post)%list ->
      invoke_all (fun m => m name) pre (st_world st) = (before, w1) ->
      ~ Exists says_true before ->
      backend_method name w1 = (Return true, w2) ->
      exists_ get_storage_class self name st =
        (Return true, mk_state w2 (st_log st))).
Proof.
  set (methods := get_backend_methods get_storage_class self (@b_exists world)).
  destruct (invoke_all (fun m => m name) methods (st_world st)) as [outs w1] eqn:Hinv.
  simpl. rewrite <- and_assoc. split.
  2:{ intros pre k m post before w1' w2 Hms Hbefore Hno Hm.
      unfold exists_, bind. fold methods. rewrite Hms.
      rewrite (exists_loop_no_true_app name pre [] st _ Hbefore Hno).
      simpl. run. now rewrite Hm. }
  unfold exists_. fold methods. unfold bind.
  destruct (Exists_dec says_true outs says_true_dec) as [Hex|Hno].
  - destruct (exists_loop_true name methods [] st Hinv Hex) as [st' ->]. simpl.
    split; split; intros H; try assumption; try reflexivity; try discriminate.
    exfalso. apply all_false_no_failure in H. tauto.
  - rewrite (exists_loop_no_true name methods [] st Hinv Hno).
    destruct (failures outs) as [|[k e] fs] eqn:Hf.
    + simpl. split; split; intros H; try discriminate; try reflexivity;
        try contradiction.
      now apply no_failure_no_true_all_false.
    + assert (Hd : dict_bool (record_failures ((k, e) :: fs) []) = true)
        by apply record_failures_one_not_empty.
      rewrite Hd.
      destruct (raise_exceptions_raises bool
                  (record_failures ((k, e) :: fs) []) (mk_state w1 (st_log st)))
        as [e' ->].
      simpl. split; split; intros H; try discriminate; try contradiction.
      apply all_false_no_failure in H. destruct H as [H _]. congruence.
Qed.

(** *** Every consulted backend raises *)

Lemma fallback_all_raised T A (method_name : string)
    (attr : Backend world -> option T) (self : FallbackStorage)
    (args : T -> action world A) (st : state world)
    (outs : list (ident * result A)) (w1 : world) :
  invoke_all args (get_backend_methods get_storage_class self attr) (st_world st)
    = (outs, w1) ->
  Forall (@raised A) outs ->
  failures outs <> [] ->
  fallback_method get_storage_class method_name attr self args st =
    raise_exceptions (record_failures (failures outs) []) (mk_state w1 (st_log st)).
Proof.
  intros Hinv Hall Hne. unfold fallback_method, bind.
  rewrite <- (app_nil_r (get_backend_methods get_storage_class self attr)).
  rewrite (fallback_loop_raised args _ [] st [] Hinv Hall). simpl.
  destruct (failures outs) as [|[k e] fs]; [congruence|].
  now rewrite record_failures_one_not_empty.
Qed.

Lemma exists_all_raised (self : FallbackStorage) (name : string)
    (st : state world) (outs : list (ident * result bool)) (w1 : world) :
  invoke_all (fun m => m name)
    (get_backend_methods get_storage_class self (@b_exists world)) (st_world st)
    = (outs, w1) ->
  Forall (@raised bool) outs ->
  failures outs <> [] ->
  exists_ get_storage_class self name st =
    raise_exceptions (record_failures (failures outs) []) (mk_state w1 (st_log st)).
Proof.
  intros Hinv Hall Hne. unfold exists_, bind.
  rewrite <- (app_nil_r (get_backend_methods get_storage_class self _)).
  rewrite (exists_loop_raised name _ [] st [] Hinv Hall). simpl.
  destruct (failures outs) as [|[k e] fs]; [congruence|].
  now rewrite record_failures_one_not_empty.
Qed.

Lemma listdir_all_raised (self : FallbackStorage) (path : string)
    (st : state world) (outs : list (ident * result (list string * list string)))
    (w1 : world) :
  invoke_all (fun m => m path)
    (get_backend_methods get_storage_class self (@b_listdir world)) (st_world st)
    = (outs, w1) ->
  Forall (@raised (list string * list string)) outs ->
  failures outs <> [] ->
  listdir get_storage_class self path st =
    raise_exceptions (record_failures (failures outs) []) (mk_state w1 (st_log st)).
Proof.
  intros Hinv Hall Hne. unfold listdir, bind.
  rewrite <- (app_nil_r (get_backend_methods get_storage_class self _)).
  rewrite (listdir_loop_raised path _ [] [] [] st [] Hinv Hall). simpl.
  destruct (failures outs) as [|[k e] fs]; [congruence|].
  now rewrite record_failures_one_not_empty.
Qed.

Lemma url_loop_scan (name : string) (backends : list (ident * Backend world))
    (w w' : world) (fs : list (ident * exn)) :
  url_scan name backends w fs w' ->
  forall exceptions log,
    url_loop name backends exceptions (mk_state w log) =
      (Return (inr (record_failures fs exceptions)), mk_state w' log).
Proof.
  induction 1 as [w
                 |k b rest w fs w' Hattr _ IH
                 |k b u x rest w w1 fs w' Hu Hx Hcall _ IH
                 |k b u x e rest w w1 w2 fs w' Hu Hx Hcall Hurl _ IH];
    intros exceptions log; simpl.
  - reflexivity.
  - destruct Hattr as [Hnone|Hnone]; rewrite Hnone;
      [apply IH | destruct (b_url b); apply IH].
  - rewrite Hu, Hx. run. rewrite Hcall. simpl. apply IH.
  - rewrite Hu, Hx. run. rewrite Hcall. simpl. rewrite Hurl. simpl. apply IH.
Qed.

Lemma url_all_scanned (self : FallbackStorage) (name : string)
    (st : state world) (fs : list (ident * exn)) (w' : world) :
  in_data_migration self = false ->
  url_scan name (get_backends get_storage_class self) (st_world st) fs w' ->
  fs <> [] ->
  url get_storage_class self name st =
    raise_exceptions (record_failures fs []) (mk_state w' (st_log st)).
Proof.
  intros Hmig Hscan Hne. unfold url, bind. rewrite Hmig.
  rewrite <- (state_eta st) at 1.
  rewrite (url_loop_scan Hscan [] (st_log st)).
  destruct fs as [|[k e] fs]; [congruence|].
  now rewrite record_failures_one_not_empty.
Qed.

Lemma open_loop_scan (self : FallbackStorage) (name mode : string) (i : nat)
    (methods : list (ident * (string -> option string -> action world (option (fileobj world)))))
    (w w' : world) (fs : list (ident * exn)) :
  open_scan self name mode i methods w fs w' ->
  forall exceptions result log,
  exists result',
    open_loop get_storage_class self name mode i methods exceptions result
      (mk_state w log) =
      (Return (inr (record_failures fs exceptions, result')), mk_state w' log).
Proof.
  induction 1 as [i w
                 |i k m e rest w w1 fs w' Hcall _ IH
                 |i k m r rest w w1 fs w' Hcall Hfalse _ IH
                 |i k m f e rest w w1 w2 fs w' Hmig Hpos Hmode Hcall Htrue Hread _ IH];
    intros exceptions result log; simpl.
  - eexists; reflexivity.
  - destruct (IH (dict_set k e exceptions) result log) as [res' Heq].
    exists res'. run. rewrite Hcall. simpl. exact Heq.
  - destruct r as [f|].
    + simpl in Hfalse.
      destruct (IH exceptions (Some f) log) as [res' Heq].
      exists res'. run. rewrite Hcall. simpl. rewrite Hfalse. exact Heq.
    + destruct (IH exceptions None log) as [res' Heq].
      exists res'. run. rewrite Hcall. simpl. exact Heq.
  - destruct (IH (dict_set k e exceptions) (Some f) log) as [res' Heq].
    exists res'. run. rewrite Hcall. simpl. rewrite Htrue, Hmig.
    destruct i as [|i]; [lia|]. simpl.
    assert (Hrb : (String.eqb mode "rb" || String.eqb mode "br")%bool = true)
      by (destruct Hmode as [->| ->]; reflexivity).
    rewrite Hrb. cbn [st_world st_log]. rewrite Hread. exact Heq.
Qed.

Lemma open_all_scanned (self : FallbackStorage) (name mode : string)
    (st : state world) (fs : list (ident * exn)) (w' : world) :
  in_data_migration self = true ->
  open_scan self name mode 0
    (get_backend_methods get_storage_class self (@b_open world)) (st_world st)
    fs w' ->
  fs <> [] ->
  open get_storage_class self name mode st =
    raise_exceptions (record_failures fs []) (mk_state w' (st_log st)).
Proof.
  intros Hmig Hscan Hne. unfold open, bind. rewrite Hmig.
  rewrite <- (state_eta st) at 1.
  destruct (open_loop_scan Hscan [] None (st_log st)) as [res' ->].
  destruct fs as [|[k e] fs]; [congruence|].
  now rewrite record_failures_one_not_empty.
Qed.

(** C9.  Let [fs] be the failures of a dispatch in which every consulted
    backend raised, one entry per backend, and [exceptions] the dictionary
    they were assigned into.  (1) Under each identifier the dictionary holds
    the failure of the last backend that raised with it; (2) its length is
    the number of distinct identifiers in [fs], not the length of [fs];
    (3, 4) the ending branches on that length: at 1 it takes the
    single-failure line [raise exceptions[0]], from 2 on it raises the
    aggregate; (5-9) this is how the methods made by [fallback_method],
    [exists], [listdir], [url] outside migration and [open] in migration
    end when [fs] is what their scan recorded. *)
Theorem failures_keyed_by_identifier (fs : list (ident * exn)) :
  let exceptions := record_failures fs [] in
  let distinct := List.length (nodup ident_eq_dec (map fst fs)) in
  (forall pre k e post,
      fs = (pre ++ (k, e) :: post)%list -> ~ In k (map fst post) ->
      dict_get k exceptions = Some e) /\
  dict_len exceptions = distinct /\
  (forall A (st : state world),
      distinct = 1 ->
      @raise_exceptions world A exceptions st =
        (match dict_get (IInt 0) exceptions with
         | Some e => Raise e
         | None => Raise (KeyError_of (IInt 0))
         end, st)) /\
  (forall A (st : state world),
      2 <= distinct ->
      @raise_exceptions world A exceptions st =
        (Raise (mk_exn PlainException (concatenate_exceptions exceptions)), st)) /\
  (forall T A (method_name : string) (attr : Backend world -> option T)
          (self : FallbackStorage) (args : T -> action world A)
          (st : state world) outs w1,
      invoke_all args (get_backend_methods get_storage_class self attr)
        (st_world st) = (outs, w1) ->
      Forall (@raised A) outs -> failures outs = fs -> fs <> [] ->
      fallback_method get_storage_class method_name attr self args st =
        raise_exceptions exceptions (mk_state w1 (st_log st))) /\
  (forall (self : FallbackStorage) (name : string) (st : state world) outs w1,
      invoke_all (fun m => m name)
        (get_backend_methods get_storage_class self (@b_exists world))
        (st_world st) = (outs, w1) ->
      Forall (@raised bool) outs -> failures outs = fs -> fs <> [] ->
      exists_ get_storage_class self name st =
        raise_exceptions exceptions (mk_state w1 (st_log st))) /\
  (forall (self : FallbackStorage) (path : string) (st : state world) outs w1,
      invoke_all (fun m => m path)
        (get_backend_methods get_storage_class self (@b_listdir world))
        (st_world st) = (outs, w1) ->
      Forall (@raised (list string * list string)) outs ->
      failures outs = fs -> fs <> [] ->
      listdir get_storage_class self path st =
        raise_exceptions exceptions (mk_state w1 (st_log st))) /\
  (forall (self : FallbackStorage) (name : string) (st : state world) w1,
      in_data_migration self = false ->
      url_scan name (get_backends get_storage_class self) (st_world st) fs w1 ->
      fs <> [] ->
      url get_storage_class self name st =
        raise_exceptions exceptions (mk_state w1 (st_log st))) /\
  (forall (self : FallbackStorage) (name mode : string) (st : state world) w1,
      in_data_migration self = true ->
      open_scan self name mode 0
        (get_backend_methods get_storage_class self (@b_open world))
        (st_world st) fs w1 ->
      fs <> [] ->
      open get_storage_class self name mode st =
        raise_exceptions exceptions (mk_state w1 (st_log st))).
Proof.
  intros exceptions distinct.
  assert (Hlen : dict_len exceptions = distinct) by apply record_failures_len.
  repeat split.
  - intros pre k e post -> Hnin. unfold exceptions.
    rewrite record_failures_app.
    change (record_failures ((k, e) :: post) (record_failures pre []))
      with (record_failures post (dict_set k e (record_failures pre []))).
    rewrite record_failures_get_other by assumption.
    apply dict_get_set_eq.
  - exact Hlen.
  - intros A st H1. unfold raise_exceptions. rewrite Hlen, H1. simpl.
    now destruct (dict_get (IInt 0) exceptions).
  - intros A st H2. unfold raise_exceptions. rewrite Hlen.
    destruct (Nat.eqb_spec distinct 1) as [E|_]; [lia|reflexivity].
  - intros T A method_name attr self args st outs w1 Hinv Hall <- Hne.
    now apply fallback_all_raised.
  - intros self name st outs w1 Hinv Hall <- Hne.
    now apply exists_all_raised.
  - intros self path st outs w1 Hinv Hall <- Hne.
    now apply listdir_all_raised.
  - intros self name st w1 Hmig Hscan Hne. now apply url_all_scanned.
  - intros self name mode st w1 Hmig Hscan Hne. now apply open_all_scanned.
Qed.

(** *** [url] outside migration *)

(** The scan of a prefix that runs out hands its dictionary to the rest. *)
Lemma url_loop_app (name : string) (pre : list (ident * Backend world)) :
  forall exceptions st exceptions' st1 rest,
    url_loop name pre exceptions st = (Return (inr exceptions'), st1) ->
    url_loop name (pre ++ rest) exceptions st = url_loop name rest exceptions' st1.
Proof.
  induction pre as [|[k b] pre IH]; intros exceptions st exceptions' st1 rest H;
    simpl in *.
  - unfold ret in H. now injection H as <- <-.
  - destruct (b_url b) as [u|]; [|now apply IH].
    destruct (b_exists b) as [x|]; [|now apply IH].
    unfold bind, call in *.
    destruct (x name (st_world st)) as [[[|]|e] w'].
    + unfold attempt in *.
      destruct (u name (st_world (mk_state w' (st_log st)))) as [[v|e] w''].
      * discriminate H.
      * now apply IH.
    + now apply IH.
    + discriminate H.
Qed.

(** C6, as the code has it.  Outside migration, when the scan reaches a
    backend that has both [url] and [exists] and its [exists(name)] raises,
    [url] raises that very exception at once: the backend is not skipped,
    the backends after it are not asked, and whatever the scan had recorded
    so far is dropped. *)
Theorem url_exists_failure_propagates (self : FallbackStorage) (name : string)
    (pre post : list ident) (backend_class : ident)
    (backend_url : string -> action world string)
    (backend_exists : string -> action world bool)
    (exceptions : dict) (e : exn) (w2 : world) (st st1 : state world) :
  in_data_migration self = false ->
  backend_classes self = (pre ++ backend_class :: post)%list ->
  url_loop name (map (fun k => (k, get_storage_class k)) pre) [] st =
    (Return (inr exceptions), st1) ->
  b_url (get_storage_class backend_class) = Some backend_url ->
  b_exists (get_storage_class backend_class) = Some backend_exists ->
  backend_exists name (st_world st1) = (Raise e, w2) ->
  url get_storage_class self name st = (Raise e, mk_state w2 (st_log st1)).
Proof.
  intros Hmig Hbs Hpre Hu Hx He. unfold url, get_backends.
  rewrite Hmig, Hbs, map_app. unfold bind at 1.
  rewrite (url_loop_app name _ [] st _ Hpre). simpl.
  rewrite Hu, Hx. run. now rewrite He.
Qed.

(** C10.  Outside migration, when the scan ran out with nothing recorded,
    [url] asks the last configured backend: a missing [url] attribute and an
    [AttributeError] raised by its [url] both become the "no backend found"
    [AttributeError]; any other exception it raises leaves [url] as it is,
    without passing through the single/aggregate ending; a URL it returns is
    the result. *)
Theorem url_terminal_fallback (self : FallbackStorage) (name : string)
    (backend_class : ident) (st st1 : state world) :
  in_data_migration self = false ->
  url_loop name (get_backends get_storage_class self) [] st =
    (Return (inr []), st1) ->
  last_item (backend_classes self) = Some backend_class ->
  (b_url (get_storage_class backend_class) = None ->
     url get_storage_class self name st = (Raise no_url_backend, st1)) /\
  (forall last_url u w2,
     b_url (get_storage_class backend_class) = Some last_url ->
     last_url name (st_world st1) = (Return u, w2) ->
     url get_storage_class self name st = (Return u, mk_state w2 (st_log st1))) /\
  (forall last_url e w2,
     b_url (get_storage_class backend_class) = Some last_url ->
     last_url name (st_world st1) = (Raise e, w2) ->
     exn_cls e = AttributeError ->
     url get_storage_class self name st =
       (Raise no_url_backend, mk_state w2 (st_log st1))) /\
  (forall last_url e w2,
     b_url (get_storage_class backend_class) = Some last_url ->
     last_url name (st_world st1) = (Raise e, w2) ->
     exn_cls e <> AttributeError ->
     url get_storage_class self name st = (Raise e, mk_state w2 (st_log st1))).
Proof.
  intros Hmig Hscan Hlast.
  assert (Hurl : url get_storage_class self name st =
                 bind (attempt
                         match b_url (get_storage_class backend_class) with
                         | Some last_url => call (last_url name)
                         | None => raise (no_attribute "url")
                         end)
                   (fun r =>
                      match r with
                      | Return u => ret u
                      | Raise e =>
                          if is_AttributeError e then raise no_url_backend
                          else raise e
                      end) st1).
  { unfold url. rewrite Hmig. unfold bind at 1. rewrite Hscan. simpl.
    now rewrite Hlast. }
  rewrite Hurl. repeat split.
  - intros Hnone. rewrite Hnone. reflexivity.
  - intros last_url u w2 Hsome Hcall. rewrite Hsome. run. now rewrite Hcall.
  - intros last_url e w2 Hsome Hcall Hcls. rewrite Hsome. run. rewrite Hcall.
    unfold is_AttributeError. now rewrite Hcls.
  - intros last_url e w2 Hsome Hcall Hcls. rewrite Hsome. run. rewrite Hcall.
    unfold is_AttributeError. destruct (exn_cls e); congruence.
Qed.

(** *** [open] in migration mode *)

(** Backends that do not find the name only move the loop on. *)
Lemma open_loop_not_found (self : FallbackStorage) (name mode : string)
    (pre : list (ident * (string -> option string -> action world (option (fileobj world))))) :
  forall i exceptions result st outs w1,
    invoke_all (fun m => m name (Some mode)) pre (st_world st) = (outs, w1) ->
    Forall (@not_found world) outs ->
    exists exceptions' result', forall rest,
      open_loop get_storage_class self name mode i (pre ++ rest) exceptions result st =
      open_loop get_storage_class self name mode (i + List.length pre) rest
        exceptions' result' (mk_state w1 (st_log st)).
Proof.
  induction pre as [|[k m] pre IH]; intros i exceptions result st outs w1 Hinv Hall;
    simpl in *.
  - injection Hinv as <- <-. exists exceptions, result. intros rest.
    now rewrite Nat.add_0_r, state_eta.
  - destruct (m name (Some mode) (st_world st)) as [r w'] eqn:Hm.
    destruct (invoke_all (fun m => m name (Some mode)) pre w') as [outs' w''] eqn:Hrest.
    injection Hinv as <- <-.
    inversion Hall as [|? ? Hhd Hall']; subst.
    unfold not_found in Hhd. simpl in Hhd.
    rewrite Nat.add_succ_r.
    destruct r as [[f|]|e].
    + simpl in Hhd.
      destruct (IH (S i) exceptions (Some f) (mk_state w' (st_log st)) outs' w''
                  Hrest Hall') as (exc' & res' & Heq).
      exists exc', res'. intros rest. run. rewrite Hm. simpl. rewrite Hhd.
      apply Heq.
    + destruct (IH (S i) exceptions None (mk_state w' (st_log st)) outs' w''
                  Hrest Hall') as (exc' & res' & Heq).
      exists exc', res'. intros rest. run. rewrite Hm. simpl. apply Heq.
    + destruct (IH (S i) (dict_set k e exceptions) result
                  (mk_state w' (st_log st)) outs' w'' Hrest Hall')
        as (exc' & res' & Heq).
      exists exc', res'. intros rest. run. rewrite Hm. simpl. apply Heq.
Qed.

(** [__save_to_primary_backend] never raises. *)
Lemma save_to_primary_backend_returns (self : FallbackStorage) (name : string)
    (file_obj : fileobj world) (st : state world) :
  exists r, fst (save_to_primary_backend get_storage_class self name file_obj st)
            = Return r.
Proof.
  unfold save_to_primary_backend, get_primary_backend. run.
  destruct (get_backends get_storage_class self) as [|[k b] bs]; simpl.
  - eexists; reflexivity.
  - destruct (b_save b) as [save|]; simpl.
    + destruct (save name file_obj (st_world st)) as [[stored|e] w']; simpl;
        eexists; reflexivity.
    + eexists; reflexivity.
Qed.

Lemma save_to_primary_backend_run (self : FallbackStorage) (name : string)
    (file_obj : fileobj world) (st : state world) (primary : ident)
    (others : list ident) :
  backend_classes self = primary :: others ->
  save_to_primary_backend get_storage_class self name file_obj st =
    match b_save (get_storage_class primary) with
    | Some save =>
        match save name file_obj (st_world st) with
        | (Return stored, w') => (Return (Some stored), mk_state w' (st_log st))
        | (Raise e, w') =>
            (Return None,
             mk_state w' (st_log st ++ [promotion_failed name])%list)
        end
    | None =>
        (Return None,
         mk_state (st_world st) (st_log st ++ [promotion_failed name])%list)
    end.
Proof.
  intros Hbs. unfold save_to_primary_backend, get_primary_backend, get_backends.
  rewrite Hbs. cbn [map]. unfold bind, attempt, ret.
  destruct (b_save (get_storage_class primary)) as [save|]; [|reflexivity].
  unfold call. now destruct (save name file_obj (st_world st)) as [[stored|e] w'].
Qed.

(** The promoting step, once the loop has reached a backend at position
    [i > 0] that returns a true file read in full. *)
Lemma open_migration_step (self : FallbackStorage) (name : string)
    (pre post : list (ident * (string -> option string -> action world (option (fileobj world)))))
    (backend_class : ident)
    (backend_method : string -> option string -> action world (option (fileobj world)))
    (outs : list (ident * result (option (fileobj world))))
    (f : fileobj world) (content : string) (w1 w2 w3 : world) (st : state world) :
  in_data_migration self = true ->
  get_backend_methods get_storage_class self (@b_open world) =
    (pre ++ (backend_class, backend_method) :: post)%list ->
  pre <> [] ->
  invoke_all (fun m => m name (Some "rb")) pre (st_world st) = (outs, w1) ->
  Forall (@not_found world) outs ->
  backend_method name (Some "rb") w1 = (Return (Some f), w2) ->
  file_bool f = true ->
  file_read f w2 = (Return content, w3) ->
  open get_storage_class self name "rb" st =
    (Return (Some (ContentFile content name)),
     snd (save_to_primary_backend get_storage_class self name (BytesIO content)
            (mk_state w3 (st_log st)))).
Proof.
  intros Hmig Hms Hpre Hinv Hall Hm Hf Hread. unfold open.
  rewrite Hmig, Hms. unfold bind at 1.
  destruct (open_loop_not_found self name "rb" pre 0 [] None st Hinv Hall)
    as (exc' & res' & ->).
  destruct pre as [|p pre]; [congruence|]. simpl.
  run. rewrite Hm. simpl. rewrite Hf, Hmig. simpl. rewrite Hread. simpl.
  destruct (save_to_primary_backend_returns self name (BytesIO content)
              (mk_state w3 (st_log st))) as [r Hr].
  destruct (save_to_primary_backend get_storage_class self name
              (BytesIO content) (mk_state w3 (st_log st))) as [r' st'].
  simpl in Hr. subst r'. reflexivity.
Qed.

(** The migration read that does promote.  In migration mode, let the
    backends that have [open] and stand before [backend_class] be at least
    one (the primary, when it has [open]) and none of them find the name, and let [backend_class] return a true file whose [read()]
    gives [content].  Then [open(name, 'rb')] returns a [ContentFile] with
    that content and name, and on its way calls [save(name,
    BytesIO(content))] on the primary backend: when that returns, the world
    is the one [save] left behind and nothing is logged; when it raises, or
    the primary has no [save], the failure is logged and the caller gets the
    same value. *)
Theorem open_migration_promotes (self : FallbackStorage) (name : string)
    (pre post : list (ident * (string -> option string -> action world (option (fileobj world)))))
    (backend_class primary : ident) (others : list ident)
    (backend_method : string -> option string -> action world (option (fileobj world)))
    (outs : list (ident * result (option (fileobj world))))
    (f : fileobj world) (content : string) (w1 w2 w3 : world) (st : state world) :
  in_data_migration self = true ->
  backend_classes self = primary :: others ->
  get_backend_methods get_storage_class self (@b_open world) =
    (pre ++ (backend_class, backend_method) :: post)%list ->
  pre <> [] ->
  invoke_all (fun m => m name (Some "rb")) pre (st_world st) = (outs, w1) ->
  Forall (@not_found world) outs ->
  backend_method name (Some "rb") w1 = (Return (Some f), w2) ->
  file_bool f = true ->
  file_read f w2 = (Return content, w3) ->
  fst (open get_storage_class self name "rb" st) =
    Return (Some (ContentFile content name)) /\
  (forall save stored w4,
      b_save (get_storage_class primary) = Some save ->
      save name (BytesIO content) w3 = (Return stored, w4) ->
      open get_storage_class self name "rb" st =
        (Return (Some (ContentFile content name)), mk_state w4 (st_log st))) /\
  (forall save e w4,
      b_save (get_storage_class primary) = Some save ->
      save name (BytesIO content) w3 = (Raise e, w4) ->
      open get_storage_class self name "rb" st =
        (Return (Some (ContentFile content name)),
         mk_state w4 (st_log st ++ [promotion_failed name])%list)) /\
  (b_save (get_storage_class primary) = None ->
      open get_storage_class self name "rb" st =
        (Return (Some (ContentFile content name)),
         mk_state w3 (st_log st ++ [promotion_failed name])%list)).
Proof.
  intros Hmig Hbs Hms Hpre Hinv Hall Hm Hf Hread.
  rewrite (@open_migration_step self name pre post backend_class backend_method
             outs f content w1 w2 w3 st Hmig Hms Hpre Hinv Hall Hm Hf Hread).
  rewrite (save_to_primary_backend_run self name (BytesIO content)
             (mk_state w3 (st_log st)) Hbs).
  cbn [st_world st_log]. split; [reflexivity|]. split; [|split].
  - intros save stored w4 Hsave Hcall. now rewrite Hsave, Hcall.
  - intros save e w4 Hsave Hcall. now rewrite Hsave, Hcall.
  - intros Hnone. now rewrite Hnone.
Qed.

End Dispatch.

(** ** More of the dispatchers *)

Section Further.

Variable world : Type.
Variable get_storage_class : ident -> Backend world.

Ltac run := unfold bind, attempt, call, ret, raise; simpl.

(** *** Which backends a dispatcher asks *)

Lemma get_backend_methods_cons T (attr : Backend world -> option T)
    (k : ident) (ks : list ident) (migrating : bool) :
  get_backend_methods get_storage_class
    {| backend_classes := k :: ks; in_data_migration := migrating |} attr =
  (match attr (get_storage_class k) with
   | Some m => [(k, m)]
   | None => []
   end ++
   get_backend_methods get_storage_class
     {| backend_classes := ks; in_data_migration := migrating |} attr)%list.
Proof. reflexivity. Qed.

Lemma get_backend_methods_flag T (attr : Backend world -> option T)
    (self : FallbackStorage) (migrating : bool) :
  get_backend_methods get_storage_class self attr =
  get_backend_methods get_storage_class
    {| backend_classes := backend_classes self; in_data_migration := migrating |}
    attr.
Proof. reflexivity. Qed.

Lemma get_backend_methods_filter T
    (attr : Backend world -> option T) (self : FallbackStorage) :
  map fst (get_backend_methods get_storage_class self attr) =
    filter (fun k => has_attr attr (get_storage_class k)) (backend_classes self)
  /\ Forall (fun km => attr (get_storage_class (fst km)) = Some (snd km))
            (get_backend_methods get_storage_class self attr).
Proof.
  rewrite (get_backend_methods_flag attr self false).
  induction (backend_classes self) as [|k ks [IHk IHm]].
  - split; [reflexivity|constructor].
  - rewrite get_backend_methods_cons. simpl filter. unfold has_attr at 1.
    destruct (attr (get_storage_class k)) as [m|] eqn:Hk; simpl.
    + split; [now rewrite IHk|]. constructor; assumption.
    + split; assumption.
Qed.

(** X2.  [get_backend_methods] hands out, in configuration order and as
    often as they are configured, exactly the identifiers whose backend has
    the attribute, each with the attribute of its own backend. *)
Theorem get_backend_methods_in_configuration_order T
    (attr : Backend world -> option T) (self : FallbackStorage) :
  map fst (get_backend_methods get_storage_class self attr) =
    filter (fun k => has_attr attr (get_storage_class k)) (backend_classes self)
  /\ Forall (fun km => attr (get_storage_class (fst km)) = Some (snd km))
            (get_backend_methods get_storage_class self attr).
Proof. apply get_backend_methods_filter. Qed.

Lemma get_backend_methods_none T (attr : Backend world -> option T)
    (self : FallbackStorage) :
  (forall k, In k (backend_classes self) -> attr (get_storage_class k) = None) ->
  get_backend_methods get_storage_class self attr = [].
Proof.
  intros Hnone.
  destruct (get_backend_methods_filter attr self) as [Hk _].
  destruct (get_backend_methods get_storage_class self attr) as [|[k m] ms];
    [reflexivity|].
  exfalso. simpl in Hk.
  assert (Hin : In k (filter (fun k => has_attr attr (get_storage_class k))
                        (backend_classes self)))
    by (rewrite <- Hk; now left).
  apply filter_In in Hin. destruct Hin as [Hin Hhas].
  unfold has_attr in Hhas. now rewrite (Hnone k Hin) in Hhas.
Qed.

(** X1.  When no configured backend has the method -- in particular when
    no backend is configured -- a method made by [fallback_method] raises
    the [AttributeError] that names the method, and no backend is called. *)
Theorem fallback_without_capable_backend T A (method_name : string)
    (attr : Backend world -> option T) (self : FallbackStorage)
    (args : T -> action world A) (st : state world) :
  (forall k, In k (backend_classes self) -> attr (get_storage_class k) = None) ->
  fallback_method get_storage_class method_name attr self args st =
    (Raise (mk_exn AttributeError
              ("No backend has the method `" ++ method_name ++ "`")), st).
Proof.
  intros Hnone. unfold fallback_method.
  now rewrite (get_backend_methods_none attr self Hnone).
Qed.

(** *** [listdir] asks every backend *)

Lemma listdir_loop_collects (path : string)
    (methods : list (ident * (string -> action world (list string * list string)))) :
  forall exceptions directories files st outs w1,
    invoke_all (fun m => m path) methods (st_world st) = (outs, w1) ->
    listdir_loop path methods exceptions directories files st =
      (Return (record_failures (failures outs) exceptions,
               ((directories ++ listed_dirs outs)%list,
                (files ++ listed_files outs)%list)),
       mk_state w1 (st_log st)).
Proof.
  induction methods as [|[k m] methods IH];
    intros exceptions directories files st outs w1 Hinv; simpl in *.
  - injection Hinv as <- <-. simpl. run. now rewrite !app_nil_r, state_eta.
  - destruct (m path (st_world st)) as [r w'] eqn:Hm.
    destruct (invoke_all (fun m => m path) methods w') as [outs' w''] eqn:Hrest.
    injection Hinv as <- <-. run. rewrite Hm. simpl.
    destruct r as [[dirs files_]|e]; simpl.
    + rewrite (IH exceptions _ _ (mk_state w' (st_log st)) outs' w'' Hrest).
      now rewrite !app_assoc.
    + exact (IH _ directories files (mk_state w' (st_log st)) outs' w'' Hrest).
Qed.

(** X3.  [listdir] calls every backend that has [listdir], in order, none
    skipped and none left out after a success.  When none of them raises,
    or when at least one non-empty name was listed, it returns the
    directory names of all the answers one after the other, and likewise
    the file names, duplicates kept; the failures of the others are
    dropped. *)
Theorem listdir_returns_the_union (self : FallbackStorage) (path : string)
    (st : state world) (outs : list (ident * result (list string * list string)))
    (w1 : world) :
  invoke_all (fun m => m path)
    (get_backend_methods get_storage_class self (@b_listdir world)) (st_world st)
    = (outs, w1) ->
  failures outs = [] \/ any (listed_dirs outs) = true
    \/ any (listed_files outs) = true ->
  listdir get_storage_class self path st =
    (Return (listed_dirs outs, listed_files outs), mk_state w1 (st_log st)).
Proof.
  intros Hinv Hcase. unfold listdir, bind.
  rewrite (listdir_loop_collects path _ [] [] [] st Hinv). simpl.
  destruct Hcase as [Hnone|[Hd|Hf]].
  - rewrite Hnone. simpl. now rewrite orb_true_r.
  - now rewrite Hd.
  - rewrite Hf. now rewrite orb_true_r.
Qed.

(** X4.  When some backend raised and the others listed nothing but empty
    directories (no name, or only empty names), [listdir] raises through
    the single/aggregate ending, although backends did answer. *)
Theorem listdir_failure_beats_empty_answers (self : FallbackStorage)
    (path : string) (st : state world)
    (outs : list (ident * result (list string * list string))) (w1 : world) :
  invoke_all (fun m => m path)
    (get_backend_methods get_storage_class self (@b_listdir world)) (st_world st)
    = (outs, w1) ->
  failures outs <> [] ->
  any (listed_dirs outs) = false ->
  any (listed_files outs) = false ->
  listdir get_storage_class self path st =
    raise_exceptions (record_failures (failures outs) [])
      (mk_state w1 (st_log st)).
Proof.
  intros Hinv Hne Hd Hf. unfold listdir, bind.
  rewrite (listdir_loop_collects path _ [] [] [] st Hinv). simpl.
  rewrite Hd, Hf. simpl.
  destruct (failures outs) as [|[k e] fs]; [congruence|].
  now rewrite record_failures_one_not_empty.
Qed.

(** *** [exists] with a backend down *)

(** X5.  When no backend answers true and at least one raised, [exists]
    does not return [False]: it raises through the single/aggregate ending,
    after asking every backend. *)
Theorem exists_surfaces_failures (self : FallbackStorage) (name : string)
    (st : state world) (outs : list (ident * result bool)) (w1 : world) :
  invoke_all (fun m => m name)
    (get_backend_methods get_storage_class self (@b_exists world)) (st_world st)
    = (outs, w1) ->
  ~ Exists says_true outs ->
  failures outs <> [] ->
  exists_ get_storage_class self name st =
    raise_exceptions (record_failures (failures outs) [])
      (mk_state w1 (st_log st)).
Proof.
  intros Hinv Hno Hne. unfold exists_, bind.
  rewrite (exists_loop_no_true name _ [] st Hinv Hno).
  destruct (failures outs) as [|[k e] fs]; [congruence|].
  now rewrite record_failures_one_not_empty.
Qed.

(** *** The aggregate message *)

Lemma dict_set_fresh (k : ident) (v : exn) (d : dict) :
  ~ In k (map fst d) -> dict_set k v d = (d ++ [(k, v)])%list.
Proof.
  induction d as [|[k' v'] d IH]; intros Hnin; simpl; [reflexivity|].
  simpl in Hnin. rewrite ident_eqb_neq by (intros ->; tauto).
  rewrite IH by tauto. reflexivity.
Qed.

Lemma record_failures_distinct (fs : list (ident * exn)) :
  forall d, NoDup (map fst (d ++ fs)) -> record_failures fs d = (d ++ fs)%list.
Proof.
  induction fs as [|[k e] fs IH]; intros d Hnd.
  - simpl. now rewrite app_nil_r.
  - change (record_failures ((k, e) :: fs) d)
      with (record_failures fs (dict_set k e d)).
    assert (Hfresh : ~ In k (map fst d)).
    { rewrite map_app in Hnd. simpl in Hnd.
      apply NoDup_remove_2 in Hnd. rewrite in_app_iff in Hnd. tauto. }
    rewrite (dict_set_fresh k e d Hfresh).
    rewrite IH; rewrite <- app_assoc; [reflexivity|exact Hnd].
Qed.

Lemma failures_keys_all_raised T A (args : T -> action world A)
    (methods : list (ident * T)) :
  forall w outs w1,
    invoke_all args methods w = (outs, w1) ->
    Forall (@raised A) outs ->
    map fst (failures outs) = map fst methods.
Proof.
  induction methods as [|[k m] methods IH]; intros w outs w1 Hinv Hall;
    simpl in *.
  - now injection Hinv as <- <-.
  - destruct (args m w) as [r w'] eqn:Hm.
    destruct (invoke_all args methods w') as [outs' w''] eqn:Hrest.
    injection Hinv as <- <-.
    inversion Hall as [|? ? [e He] Hall']; subst. simpl in He. subst r.
    simpl. now rewrite (IH w' outs' w'' Hrest Hall').
Qed.

Lemma concatenate_exceptions_lines (exceptions : dict) :
  concatenate_exceptions exceptions = join newline (map failure_line exceptions).
Proof.
  unfold concatenate_exceptions. f_equal. apply map_ext. now intros [k e].
Qed.

(** X6.  When two or more backends with pairwise different identifiers
    are consulted and every one of them raises, a method made by
    [fallback_method] raises a plain [Exception] whose message has exactly
    one line per consulted backend, in the order they were consulted, each
    line being the error followed by the identifier. *)
Theorem fallback_aggregate_message T A (method_name : string)
    (attr : Backend world -> option T) (self : FallbackStorage)
    (args : T -> action world A) (st : state world)
    (outs : list (ident * result A)) (w1 : world) :
  invoke_all args (get_backend_methods get_storage_class self attr) (st_world st)
    = (outs, w1) ->
  Forall (@raised A) outs ->
  NoDup (map fst (get_backend_methods get_storage_class self attr)) ->
  2 <= List.length (get_backend_methods get_storage_class self attr) ->
  fallback_method get_storage_class method_name attr self args st =
    (Raise (mk_exn PlainException
              (join newline (map failure_line (failures outs)))),
     mk_state w1 (st_log st))
  /\ List.length (failures outs) =
     List.length (get_backend_methods get_storage_class self attr).
Proof.
  intros Hinv Hall Hnd Hlen.
  assert (Hkeys := failures_keys_all_raised args _ _ Hinv Hall).
  assert (Hcount : List.length (failures outs) =
                   List.length (get_backend_methods get_storage_class self attr)).
  { rewrite <- (length_map fst (failures outs)), Hkeys. apply length_map. }
  split; [|exact Hcount].
  assert (Hne : failures outs <> []).
  { intros H. rewrite H in Hcount. simpl in Hcount. lia. }
  rewrite (fallback_all_raised get_storage_class method_name attr self args
             st Hinv Hall Hne).
  rewrite record_failures_distinct by (simpl; now rewrite Hkeys).
  simpl. unfold raise_exceptions, dict_len.
  destruct (Nat.eqb_spec (List.length (failures outs)) 1) as [E|_]; [lia|].
  now rewrite concatenate_exceptions_lines.
Qed.

(** *** [url] *)

Lemma url_loop_scan_app (name : string) (pre rest : list (ident * Backend world))
    (w w1 : world) (fs : list (ident * exn)) (exceptions : dict)
    (log : list string) :
  url_scan name pre w fs w1 ->
  url_loop name (pre ++ rest) exceptions (mk_state w log) =
  url_loop name rest (record_failures fs exceptions) (mk_state w1 log).
Proof.
  intros Hscan. apply url_loop_app. now apply url_loop_scan.
Qed.

(** X7.  Outside migration, the first backend that has both [url] and
    [exists], says the name exists and builds a URL decides: [url] returns
    that URL in the world the call left behind.  The backends after it are
    not asked, and failures of [url] recorded from backends before it are
    not reported. *)
Theorem url_first_hit (self : FallbackStorage) (name : string)
    (pre post : list ident) (backend_class : ident)
    (backend_url : string -> action world string)
    (backend_exists : string -> action world bool)
    (fs : list (ident * exn)) (u : string) (w1 w2 w3 : world)
    (st : state world) :
  in_data_migration self = false ->
  backend_classes self = (pre ++ backend_class :: post)%list ->
  url_scan name (map (fun k => (k, get_storage_class k)) pre) (st_world st) fs w1 ->
  b_url (get_storage_class backend_class) = Some backend_url ->
  b_exists (get_storage_class backend_class) = Some backend_exists ->
  backend_exists name w1 = (Return true, w2) ->
  backend_url name w2 = (Return u, w3) ->
  url get_storage_class self name st = (Return u, mk_state w3 (st_log st)).
Proof.
  intros Hmig Hbs Hscan Hu Hx Hex Hurl. unfold url, get_backends.
  rewrite Hmig, Hbs, map_app. unfold bind at 1.
  rewrite <- (state_eta st) at 1.
  rewrite (url_loop_scan_app _ [] (st_log st) Hscan). simpl.
  rewrite Hu, Hx. run. rewrite Hex. simpl. now rewrite Hurl.
Qed.

(** X8.  The same configuration answers differently in the two modes for a
    name the scan does not find: in migration mode [url] is the URL built by
    the first backend that has [url], whose [exists] is never asked; outside
    migration it is the URL built by the last configured backend. *)
Theorem url_of_unfound_name_depends_on_mode (backends : list ident)
    (name : string) (first last_class : ident)
    (later : list (ident * (string -> action world string)))
    (first_url last_url : string -> action world string)
    (a b : string) (wa w1 wb : world) (st : state world) :
  get_backend_methods get_storage_class
    {| backend_classes := backends; in_data_migration := true |} (@b_url world)
    = (first, first_url) :: later ->
  first_url name (st_world st) = (Return a, wa) ->
  url_scan name (map (fun k => (k, get_storage_class k)) backends)
    (st_world st) [] w1 ->
  last_item backends = Some last_class ->
  b_url (get_storage_class last_class) = Some last_url ->
  last_url name w1 = (Return b, wb) ->
  url get_storage_class
    {| backend_classes := backends; in_data_migration := true |} name st
    = (Return a, mk_state wa (st_log st))
  /\ url get_storage_class
       {| backend_classes := backends; in_data_migration := false |} name st
     = (Return b, mk_state wb (st_log st)).
Proof.
  intros Hms Hfirst Hscan Hlast Hu Hcall. destruct st as [w log].
  simpl in Hfirst, Hscan. split.
  - unfold url, fallback_method. cbn [in_data_migration].
    rewrite Hms. simpl. run. now rewrite Hfirst.
  - unfold url, get_backends. cbn [in_data_migration backend_classes].
    unfold bind at 1.
    rewrite (url_loop_scan Hscan [] log). simpl.
    rewrite Hlast, Hu. run. now rewrite Hcall.
Qed.

(** *** No backend configured *)

(** X9.  A facade without any backend (a supplied empty list) answers
    every call without touching the world: the methods made by
    [fallback_method] raise the [AttributeError] naming the method, [exists]
    returns [False], [listdir] returns two empty lists, [url] raises
    [AttributeError] in migration mode and [IndexError] outside it, [open]
    returns [None] in migration mode and raises [AttributeError] outside it,
    and [__save_to_primary_backend] logs its message and returns [None]. *)
Theorem facade_without_backends (self : FallbackStorage) (name mode : string)
    (st : state world) :
  backend_classes self = [] ->
  (forall T A (method_name : string) (attr : Backend world -> option T)
          (args : T -> action world A),
      fallback_method get_storage_class method_name attr self args st =
        (Raise (mk_exn AttributeError
                  ("No backend has the method `" ++ method_name ++ "`")), st)) /\
  exists_ get_storage_class self name st = (Return false, st) /\
  listdir get_storage_class self name st = (Return ([], []), st) /\
  url get_storage_class self name st =
    (if in_data_migration self
     then Raise (mk_exn AttributeError "No backend has the method `url`")
     else Raise (mk_exn IndexError "list index out of range"), st) /\
  open get_storage_class self name mode st =
    (if in_data_migration self
     then Return None
     else Raise (mk_exn AttributeError "No backend has the method `open`"), st) /\
  (forall file_obj,
      save_to_primary_backend get_storage_class self name file_obj st =
        (Return None,
         mk_state (st_world st) (st_log st ++ [promotion_failed name])%list)).
Proof.
  intros Hbs.
  assert (Hnone : forall T (attr : Backend world -> option T),
             get_backend_methods get_storage_class self attr = []).
  { intros T attr. apply get_backend_methods_none. rewrite Hbs. intros k []. }
  split; [|split; [|split; [|split; [|split]]]].
  - intros T A method_name attr args. unfold fallback_method.
    now rewrite Hnone.
  - unfold exists_. now rewrite Hnone.
  - unfold listdir. now rewrite Hnone.
  - unfold url, fallback_method, get_backends. rewrite Hnone, Hbs.
    now destruct (in_data_migration self).
  - unfold open, fallback_method. rewrite !Hnone.
    now destruct (in_data_migration self).
  - intros file_obj.
    unfold save_to_primary_backend, get_primary_backend, get_backends.
    now rewrite Hbs.
Qed.

(** *** [open] in migration mode, the other branches *)

Lemma open_loop_scan_app (self : FallbackStorage) (name mode : string) (i : nat)
    (pre : list (ident * (string -> option string -> action world (option (fileobj world)))))
    (w w1 : world) (fs : list (ident * exn)) :
  open_scan self name mode i pre w fs w1 ->
  forall exceptions result log,
  exists result', forall rest,
    open_loop get_storage_class self name mode i (pre ++ rest) exceptions result
      (mk_state w log) =
    open_loop get_storage_class self name mode (i + List.length pre) rest
      (record_failures fs exceptions) result' (mk_state w1 log).
Proof.
  induction 1 as [i w
                 |i k m e pre w w1 fs w' Hcall _ IH
                 |i k m r pre w w1 fs w' Hcall Hfalse _ IH
                 |i k m f e pre w w1 w2 fs w' Hmig Hpos Hmode Hcall Htrue Hread _ IH];
    intros exceptions result log; simpl.
  - exists result. intros rest. now rewrite Nat.add_0_r.
  - destruct (IH (dict_set k e exceptions) result log) as [res' Heq].
    exists res'. intros rest. rewrite Nat.add_succ_r. run. rewrite Hcall. simpl.
    apply Heq.
  - destruct r as [f|].
    + simpl in Hfalse.
      destruct (IH exceptions (Some f) log) as [res' Heq].
      exists res'. intros rest. rewrite Nat.add_succ_r. run. rewrite Hcall.
      simpl. rewrite Hfalse. apply Heq.
    + destruct (IH exceptions None log) as [res' Heq].
      exists res'. intros rest. rewrite Nat.add_succ_r. run. rewrite Hcall.
      simpl. apply Heq.
  - destruct (IH (dict_set k e exceptions) (Some f) log) as [res' Heq].
    exists res'. intros rest. rewrite Nat.add_succ_r. run. rewrite Hcall. simpl.
    rewrite Htrue, Hmig.
    destruct i as [|i]; [lia|]. simpl.
    assert (Hrb : (String.eqb mode "rb" || String.eqb mode "br")%bool = true)
      by (destruct Hmode as [->| ->]; reflexivity).
    rewrite Hrb. cbn [st_world st_log]. rewrite Hread. apply Heq.
Qed.

Lemma last_item_Forall A (P : A -> Prop) (l : list A) :
  Forall P l -> l <> [] -> exists x, last_item l = Some x /\ P x.
Proof.
  induction 1 as [|x l Hx Hl IH]; intros Hne; [congruence|].
  destruct l as [|y l].
  - exists x. split; [reflexivity|assumption].
  - destruct IH as (z & Hz & Pz); [discriminate|].
    exists z. split; [exact Hz|assumption].
Qed.

Lemma last_answer_cons (initial r : option (fileobj world)) (k : ident)
    (outs : list (ident * result (option (fileobj world)))) :
  Forall (@answered_false world) outs ->
  last_answer initial ((k, Return r) :: outs) = last_answer r outs.
Proof.
  intros Hall. destruct outs as [|y outs]; [reflexivity|].
  destruct (last_item_Forall Hall) as ([k' o] & Hlast & r' & Ho & _);
    [discriminate|].
  simpl in Ho. subst o. unfold last_answer.
  change (last_item ((k, Return r) :: y :: outs)) with (last_item (y :: outs)).
  now rewrite Hlast.
Qed.

(** Backends that answer with something false only move the loop on, and
    [result] ends up holding the last answer. *)
Lemma open_loop_all_false (self : FallbackStorage) (name mode : string)
    (methods : list (ident * (string -> option string -> action world (option (fileobj world))))) :
  forall i exceptions result st outs w1,
    invoke_all (fun m => m name (Some mode)) methods (st_world st) = (outs, w1) ->
    Forall (@answered_false world) outs ->
    open_loop get_storage_class self name mode i methods exceptions result st =
      (Return (inr (exceptions, last_answer result outs)),
       mk_state w1 (st_log st)).
Proof.
  induction methods as [|[k m] methods IH];
    intros i exceptions result st outs w1 Hinv Hall; simpl in *.
  - injection Hinv as <- <-. unfold ret. now rewrite state_eta.
  - destruct (m name (Some mode) (st_world st)) as [r w'] eqn:Hm.
    destruct (invoke_all (fun m => m name (Some mode)) methods w')
      as [outs' w''] eqn:Hrest.
    injection Hinv as <- <-.
    inversion Hall as [|? ? (r0 & Hr0 & Hfalse) Hall']; subst.
    simpl in Hr0. subst r.
    rewrite (last_answer_cons result r0 k Hall').
    run. rewrite Hm. simpl.
    destruct r0 as [f|].
    + simpl in Hfalse. rewrite Hfalse.
      exact (IH (S i) exceptions (Some f) (mk_state w' (st_log st)) outs' w''
               Hrest Hall').
    + exact (IH (S i) exceptions None (mk_state w' (st_log st)) outs' w''
               Hrest Hall').
Qed.

(** X10.  In migration mode, when the first backend that has [open]
    returns a true file, [open] hands that very file to the caller, in any
    mode: nothing is read, nothing is saved into the primary backend,
    nothing is logged, and no other backend is asked. *)
Theorem open_first_backend_answers (self : FallbackStorage) (name mode : string)
    (backend_class : ident)
    (backend_method : string -> option string -> action world (option (fileobj world)))
    (post : list (ident * (string -> option string -> action world (option (fileobj world)))))
    (f : fileobj world) (w1 : world) (st : state world) :
  in_data_migration self = true ->
  get_backend_methods get_storage_class self (@b_open world) =
    (backend_class, backend_method) :: post ->
  backend_method name (Some mode) (st_world st) = (Return (Some f), w1) ->
  file_bool f = true ->
  open get_storage_class self name mode st =
    (Return (Some f), mk_state w1 (st_log st)).
Proof.
  intros Hmig Hms Hcall Htrue. unfold open. rewrite Hmig, Hms. simpl.
  run. rewrite Hcall. simpl. rewrite Htrue, Hmig. reflexivity.
Qed.

(** X11.  In migration mode, when the scan of the backends before one (at
    least one of them, each raising, answering false or handing out an
    unreadable file) has run out and that one returns a true file whose
    [read()] gives [content], [open] in mode 'rb' or 'br' returns a
    [ContentFile] with that content and the requested name, after one call
    of [__save_to_primary_backend] with a [BytesIO] of the content; the
    failures recorded on the way are not reported. *)
Theorem open_promotes_after_failures (self : FallbackStorage)
    (name mode : string)
    (pre post : list (ident * (string -> option string -> action world (option (fileobj world)))))
    (backend_class : ident)
    (backend_method : string -> option string -> action world (option (fileobj world)))
    (fs : list (ident * exn)) (f : fileobj world) (content : string)
    (w1 w2 w3 : world) (st : state world) :
  in_data_migration self = true ->
  mode = "rb" \/ mode = "br" ->
  get_backend_methods get_storage_class self (@b_open world) =
    (pre ++ (backend_class, backend_method) :: post)%list ->
  pre <> [] ->
  open_scan self name mode 0 pre (st_world st) fs w1 ->
  backend_method name (Some mode) w1 = (Return (Some f), w2) ->
  file_bool f = true ->
  file_read f w2 = (Return content, w3) ->
  open get_storage_class self name mode st =
    (Return (Some (ContentFile content name)),
     snd (save_to_primary_backend get_storage_class self name (BytesIO content)
            (mk_state w3 (st_log st)))).
Proof.
  intros Hmig Hmode Hms Hpre Hscan Hcall Htrue Hread. unfold open.
  rewrite Hmig, Hms. unfold bind at 1. destruct st as [w log]. simpl in Hscan.
  destruct (open_loop_scan_app Hscan [] None log) as (res' & ->).
  destruct pre as [|p pre]; [congruence|].
  destruct Hmode as [->| ->]; simpl;
    run; rewrite Hcall; simpl; rewrite Htrue, Hmig; simpl; rewrite Hread; simpl.
  all: destruct (save_to_primary_backend_returns get_storage_class self name
              (BytesIO content) (mk_state w3 log)) as [r Hr].
  all: destruct (save_to_primary_backend get_storage_class self name
                   (BytesIO content) (mk_state w3 log)) as [r' st'].
  all: simpl in Hr; subst r'; reflexivity.
Qed.

(** X12.  In migration mode and a mode other than 'rb' and 'br', when a
    backend after the first returns a true file, [open] calls that backend's
    [open] a second time with the default mode and always returns the first
    file: a true second file goes to [__save_to_primary_backend]; after a
    false second answer nothing is saved or logged; a second call that
    raises is logged with mode and name and not raised. *)
Theorem open_other_mode_refetches (self : FallbackStorage)
    (name mode : string)
    (pre post : list (ident * (string -> option string -> action world (option (fileobj world)))))
    (backend_class : ident)
    (backend_method : string -> option string -> action world (option (fileobj world)))
    (fs : list (ident * exn)) (f : fileobj world)
    (w1 w2 : world) (st : state world) :
  in_data_migration self = true ->
  mode <> "rb" -> mode <> "br" ->
  get_backend_methods get_storage_class self (@b_open world) =
    (pre ++ (backend_class, backend_method) :: post)%list ->
  pre <> [] ->
  open_scan self name mode 0 pre (st_world st) fs w1 ->
  backend_method name (Some mode) w1 = (Return (Some f), w2) ->
  file_bool f = true ->
  (forall g w3,
      backend_method name None w2 = (Return (Some g), w3) ->
      file_bool g = true ->
      open get_storage_class self name mode st =
        (Return (Some f),
         snd (save_to_primary_backend get_storage_class self name g
                (mk_state w3 (st_log st))))) /\
  (forall r w3,
      backend_method name None w2 = (Return r, w3) ->
      opened_bool r = false ->
      open get_storage_class self name mode st =
        (Return (Some f), mk_state w3 (st_log st))) /\
  (forall e w3,
      backend_method name None w2 = (Raise e, w3) ->
      open get_storage_class self name mode st =
        (Return (Some f),
         mk_state w3 (st_log st ++ [refetch_failed mode name])%list)).
Proof.
  intros Hmig Hrb Hbr Hms Hpre Hscan Hcall Htrue.
  destruct st as [w log]. simpl in Hscan.
  destruct (open_loop_scan_app Hscan [] None log) as (res' & Hloop).
  assert (Hopen : open get_storage_class self name mode (mk_state w log) =
                  bind (open_loop get_storage_class self name mode
                          (0 + List.length pre) ((backend_class, backend_method) :: post)
                          (record_failures fs []) res')
                    (fun r => match r with
                              | inl v => ret v
                              | inr (exceptions, result) =>
                                  if dict_bool exceptions
                                  then raise_exceptions exceptions
                                  else ret result
                              end) (mk_state w1 log)).
  { unfold open. rewrite Hmig, Hms. unfold bind. now rewrite Hloop. }
  rewrite Hopen. clear Hopen Hloop.
  destruct pre as [|p pre]; [congruence|]. simpl.
  apply String.eqb_neq in Hrb. apply String.eqb_neq in Hbr.
  run. rewrite Hcall. simpl. rewrite Htrue, Hmig, Hrb, Hbr.
  change (0 <? S (List.length pre))%nat with true.
  cbn [andb orb st_world st_log].
  split; [|split].
  - intros g w3 Hsecond Hg. rewrite Hsecond. simpl. rewrite Hg.
    destruct (save_to_primary_backend_returns get_storage_class self name g
                (mk_state w3 log)) as [r Hr].
    destruct (save_to_primary_backend get_storage_class self name g
                (mk_state w3 log)) as [r' st'].
    simpl in Hr. subst r'. reflexivity.
  - intros r w3 Hsecond Hr. rewrite Hsecond. simpl.
    destruct r as [g|]; [simpl in Hr; rewrite Hr|]; reflexivity.
  - intros e w3 Hsecond. rewrite Hsecond. reflexivity.
Qed.

(** X13.  In migration mode, when every backend that has [open] answers
    with something false and none raises, [open] raises nothing: after
    asking them all it returns the answer of the last one, a false file as
    it is or [None], and [None] when no backend has [open]. *)
Theorem open_finds_nothing (self : FallbackStorage) (name mode : string)
    (outs : list (ident * result (option (fileobj world)))) (w1 : world)
    (st : state world) :
  in_data_migration self = true ->
  invoke_all (fun m => m name (Some mode))
    (get_backend_methods get_storage_class self (@b_open world)) (st_world st)
    = (outs, w1) ->
  Forall (@answered_false world) outs ->
  open get_storage_class self name mode st =
    (Return (last_answer None outs), mk_state w1 (st_log st))
  /\ opened_bool (last_answer None outs) = false.
Proof.
  intros Hmig Hinv Hall. split.
  - unfold open, bind. rewrite Hmig.
    now rewrite (open_loop_all_false self name mode _ 0 [] None st Hinv Hall).
  - destruct outs as [|y outs]; [reflexivity|].
    destruct (last_item_Forall Hall) as ([k o] & Hlast & r & Ho & Hfalse);
      [discriminate|].
    simpl in Ho. subst o. unfold last_answer. now rewrite Hlast.
Qed.

(** *** [__save_to_primary_backend] *)

(** X14.  [__save_to_primary_backend] never raises.  It returns a name only
    when there is a primary backend, it has [save], and its
    [save(name, file_obj)] returned that name; nothing is logged then.  In
    every other case (no backend, no [save], [save] raising) it returns
    [None] and adds exactly one line to the log. *)
Theorem save_to_primary_backend_never_raises (self : FallbackStorage)
    (name : string) (file_obj : fileobj world) (st : state world) :
  exists r st',
    save_to_primary_backend get_storage_class self name file_obj st = (Return r, st')
    /\ (forall stored, r = Some stored ->
          st_log st' = st_log st /\
          exists primary others save,
            backend_classes self = primary :: others /\
            b_save (get_storage_class primary) = Some save /\
            save name file_obj (st_world st) = (Return stored, st_world st'))
    /\ (r = None -> st_log st' = (st_log st ++ [promotion_failed name])%list).
Proof.
  destruct (backend_classes self) as [|primary others] eqn:Hbs.
  - exists None, (mk_state (st_world st) (st_log st ++ [promotion_failed name])%list).
    unfold save_to_primary_backend, get_primary_backend, get_backends.
    rewrite Hbs. split; [reflexivity|]. split; [discriminate|reflexivity].
  - rewrite (save_to_primary_backend_run get_storage_class self name file_obj
               st Hbs).
    destruct (b_save (get_storage_class primary)) as [save|] eqn:Hsave.
    + destruct (save name file_obj (st_world st)) as [[stored|e] w'] eqn:Hcall.
      * exists (Some stored), (mk_state w' (st_log st)).
        split; [reflexivity|]. split; [|discriminate].
        intros stored' [= <-]. split; [reflexivity|].
        exists primary, others, save. auto.
      * exists None, (mk_state w' (st_log st ++ [promotion_failed name])%list).
        split; [reflexivity|]. split; [discriminate|reflexivity].
    + exists None,
        (mk_state (st_world st) (st_log st ++ [promotion_failed name])%list).
      split; [reflexivity|]. split; [discriminate|reflexivity].
Qed.

(** *** The log *)

Lemma raise_exceptions_state A (exceptions : dict) (st : state world) :
  snd (@raise_exceptions world A exceptions st) = st.
Proof.
  destruct (raise_exceptions_raises A exceptions st) as [e ->]. reflexivity.
Qed.

Lemma fallback_loop_log T A (args : T -> action world A)
    (methods : list (ident * T)) :
  forall exceptions st,
    st_log (snd (fallback_loop args methods exceptions st)) = st_log st.
Proof.
  induction methods as [|[k m] methods IH]; intros exceptions st; simpl;
    [reflexivity|].
  run. destruct (args m (st_world st)) as [[v|e] w']; simpl; [reflexivity|].
  now rewrite IH.
Qed.

Lemma fallback_method_log T A (method_name : string)
    (attr : Backend world -> option T) (self : FallbackStorage)
    (args : T -> action world A) (st : state world) :
  st_log (snd (fallback_method get_storage_class method_name attr self args st))
  = st_log st.
Proof.
  unfold fallback_method, bind.
  assert (Hloop := fallback_loop_log args
                     (get_backend_methods get_storage_class self attr) [] st).
  destruct (fallback_loop args _ [] st) as [[[v|exceptions]|e] st'];
    simpl in *; try assumption.
  destruct (dict_bool exceptions); [|assumption].
  now rewrite raise_exceptions_state.
Qed.

Lemma exists_loop_log (name : string)
    (methods : list (ident * (string -> action world bool))) :
  forall exceptions st,
    st_log (snd (exists_loop name methods exceptions st)) = st_log st.
Proof.
  induction methods as [|[k m] methods IH]; intros exceptions st; simpl;
    [reflexivity|].
  run. destruct (m name (st_world st)) as [[[|]|e] w']; simpl;
    [reflexivity | now rewrite IH | now rewrite IH].
Qed.

Lemma listdir_loop_log (path : string)
    (methods : list (ident * (string -> action world (list string * list string)))) :
  forall exceptions directories files st,
    st_log (snd (listdir_loop path methods exceptions directories files st))
    = st_log st.
Proof.
  induction methods as [|[k m] methods IH];
    intros exceptions directories files st; simpl; [reflexivity|].
  run. destruct (m path (st_world st)) as [[[dirs files_]|e] w']; simpl;
    now rewrite IH.
Qed.

Lemma url_loop_log (name : string) (backends : list (ident * Backend world)) :
  forall exceptions st,
    st_log (snd (url_loop name backends exceptions st)) = st_log st.
Proof.
  induction backends as [|[k b] backends IH]; intros exceptions st; simpl;
    [reflexivity|].
  destruct (b_url b) as [u|]; [|apply IH].
  destruct (b_exists b) as [x|]; [|apply IH].
  run. destruct (x name (st_world st)) as [[[|]|e] w']; simpl.
  - destruct (u name w') as [[v|e] w'']; simpl; [reflexivity|now rewrite IH].
  - now rewrite IH.
  - reflexivity.
Qed.

(** X15.  Only [open] in migration mode writes to the log: the methods
    made by [fallback_method], [exists], [listdir], [url] in both modes and
    [open] outside migration leave the log as it was, whatever the backends
    do. *)
Theorem only_migration_open_logs (self : FallbackStorage) (name mode : string)
    (st : state world) :
  (forall T A (method_name : string) (attr : Backend world -> option T)
          (args : T -> action world A),
      st_log (snd (fallback_method get_storage_class method_name attr self args st))
      = st_log st) /\
  st_log (snd (exists_ get_storage_class self name st)) = st_log st /\
  st_log (snd (listdir get_storage_class self name st)) = st_log st /\
  st_log (snd (url get_storage_class self name st)) = st_log st /\
  (in_data_migration self = false ->
   st_log (snd (open get_storage_class self name mode st)) = st_log st).
Proof.
  split; [|split; [|split; [|split]]].
  - intros. apply fallback_method_log.
  - unfold exists_, bind.
    assert (Hloop := exists_loop_log name
                       (get_backend_methods get_storage_class self (@b_exists world))
                       [] st).
    destruct (exists_loop name _ [] st) as [[[b|exceptions]|e] st'];
      simpl in *; try assumption.
    destruct (dict_bool exceptions); [|assumption].
    now rewrite raise_exceptions_state.
  - unfold listdir, bind.
    assert (Hloop := listdir_loop_log name
                       (get_backend_methods get_storage_class self (@b_listdir world))
                       [] [] [] st).
    destruct (listdir_loop name _ [] [] [] st)
      as [[[exceptions [directories files]]|e] st']; simpl in *; try assumption.
    destruct ((any directories || any files) || negb (dict_bool exceptions))%bool;
      [assumption|].
    destruct (dict_bool exceptions); [|assumption].
    now rewrite raise_exceptions_state.
  - unfold url. destruct (in_data_migration self); [apply fallback_method_log|].
    unfold bind at 1.
    assert (Hloop := url_loop_log name (get_backends get_storage_class self) [] st).
    destruct (url_loop name _ [] st) as [[[u|exceptions]|e] st'];
      simpl in *; try assumption.
    destruct (dict_bool exceptions); [now rewrite raise_exceptions_state|].
    destruct (last_item (backend_classes self)) as [k|]; [|assumption].
    destruct (b_url (get_storage_class k)) as [last_url|]; run.
    + destruct (last_url name (st_world st')) as [[u|e] w']; simpl;
        [assumption|]. now destruct (is_AttributeError e).
    + assumption.
  - intros Hmig. unfold open. rewrite Hmig. apply fallback_method_log.
Qed.

End Further.

(** ** Construction *)

(** C4, as the code has it.  A supplied list is taken as it is, empty or
    not, and construction succeeds; without a supplied list, construction
    succeeds when the setting holds a list with at least one entry and fails
    with [ImproperlyConfigured] when the setting is missing or empty. *)
Theorem init_checks_only_the_setting (settings : Settings) :
  (forall backends,
      exists self, init settings (Some backends) = Return self
                   /\ backend_classes self = backends) /\
  (forall b bs,
      FALLBACK_STORAGES settings = Some (b :: bs) ->
      exists self, init settings None = Return self
                   /\ backend_classes self = b :: bs) /\
  (FALLBACK_STORAGES settings = None \/ FALLBACK_STORAGES settings = Some [] ->
      exists e, init settings None = Raise e
                /\ exn_cls e = ImproperlyConfigured).
Proof.
  split; [|split].
  - intros backends. eexists. split; reflexivity.
  - intros b bs H. unfold init. rewrite H. eexists. split; reflexivity.
  - intros [H|H]; unfold init; rewrite H; eexists; split; reflexivity.
Qed.

(** * The facade on concrete backends *)

Import Fixture.

(** C4: a supplied empty list is accepted. *)
Lemma init_accepts_supplied_empty_list :
  init no_settings (Some []) =
    Return {| backend_classes := []; in_data_migration := false |}
  /\ ~ (exists e, init no_settings (Some []) = Raise e).
Proof.
  split; [reflexivity|]. intros [e H]. discriminate H.
Qed.

(** C7 at work: the first backend is down, the second knows the size, a
    third one is never asked. *)
Lemma size_first_success_example :
  size get_storage_class
    (storage [IStr "a"; IStr "filesystem"; IStr "b"] false) "foo.txt"
    (start disk0)
  = (Return 8%Z, start disk0).
Proof.
  unfold size.
  apply (@fallback_first_success disk get_storage_class _ _ "size" _ _ _
           [(IStr "a", fun _ w => (Raise (down "x"), w))]
           [(IStr "b", fun _ w => (Raise (down "y"), w))]
           (IStr "filesystem") (mem_size 1)
           [(IStr "a", Raise (down "x"))] 8%Z disk0 disk0 (start disk0)).
  - reflexivity.
  - reflexivity.
  - repeat constructor. exists (down "x"). reflexivity.
  - reflexivity.
Defined.

(** C1 at work: one backend, which is down. *)
Lemma delete_single_failure_example :
  IStr "a" <> IInt 0 /\
  delete get_storage_class (storage [IStr "a"] false) "foo.txt" (start disk0)
  = (Raise (KeyError_of (IInt 0)), start disk0).
Proof.
  assert (Hne : IStr "a" <> IInt 0) by discriminate.
  split; [exact Hne|].
  destruct (@single_failure_raises_KeyError disk get_storage_class
              (storage [IStr "a"] false) (IStr "a") (down "x") (start disk0) Hne)
    as [Hfallback _].
  unfold delete.
  apply (Hfallback _ _ "delete" _ _ (fun _ w => (Raise (down "x"), w)) disk0).
  - reflexivity.
  - reflexivity.
Defined.

(** C3 at work: two backends, both down. *)
Lemma delete_aggregate_example :
  delete get_storage_class (storage [IStr "a"; IStr "b"] false) "foo.txt"
    (start disk0)
  = (Raise (mk_exn PlainException ("x: a" ++ newline ++ "y: b")), start disk0).
Proof.
  unfold delete.
  apply (@aggregate_line_is_error_then_identifier disk get_storage_class _ _
           "delete" _ _ _ (IStr "a") (IStr "b")
           (fun _ w => (Raise (down "x"), w)) (fun _ w => (Raise (down "y"), w))
           (down "x") (down "y") disk0 disk0 (start disk0)).
  - discriminate.
  - reflexivity.
  - reflexivity.
  - reflexivity.
Defined.

(** C5 at work: the only backend has no [listdir]. *)
Lemma listdir_without_support_example :
  listdir get_storage_class (storage [IStr "dropbox"] false) "" (start disk0)
  = (Return ([], []), start disk0).
Proof.
  apply listdir_without_support_returns_empty. reflexivity.
Defined.

(** C9 at work: of two failures under one identifier the later one is
    kept; and with the same identifier configured twice, both instances
    down, two backends are consulted, one key is in the dictionary, and the
    single-failure line is taken. *)
Lemma same_identifier_twice_example :
  dict_get (IStr "a")
    (record_failures [(IStr "a", down "first"); (IStr "a", down "second")] [])
  = Some (down "second") /\
  delete get_storage_class (storage [IStr "a"; IStr "a"] false) "foo.txt"
    (start disk0)
  = (Raise (KeyError_of (IInt 0)), start disk0).
Proof.
  split.
  - destruct (@failures_keyed_by_identifier disk get_storage_class
                [(IStr "a", down "first"); (IStr "a", down "second")])
      as (Hlast & _).
    apply (Hlast [(IStr "a", down "first")] (IStr "a") (down "second") []).
    + reflexivity.
    + intros [].
  - destruct (@failures_keyed_by_identifier disk get_storage_class
                [(IStr "a", down "x"); (IStr "a", down "x")])
      as (_ & _ & Hsingle & _ & Hfallback & _).
    unfold delete.
    rewrite (Hfallback _ _ "delete" _
               (storage [IStr "a"; IStr "a"] false) (fun m => m "foo.txt")
               (start disk0)
               [(IStr "a", Raise (down "x")); (IStr "a", Raise (down "x"))]
               disk0).
    + rewrite Hsingle; reflexivity.
    + reflexivity.
    + repeat constructor; exists (down "x"); reflexivity.
    + reflexivity.
    + discriminate.
Defined.

(** C8 at work: the first backend raises, the second has the file; and a
    name no backend has. *)
Lemma exists_after_failure_example :
  fst (exists_ get_storage_class (storage [IStr "a"; IStr "filesystem"] false)
         "foo.txt" (start disk0)) = Return true /\
  fst (exists_ get_storage_class
         (storage [IStr "inmemory"; IStr "filesystem"] false)
         "nope.txt" (start disk0)) = Return false.
Proof.
  split.
  - apply (proj1 (@exists_true_and_false_cases disk get_storage_class
                    (storage [IStr "a"; IStr "filesystem"] false) "foo.txt"
                    (start disk0))).
    simpl. apply Exists_cons_tl, Exists_cons_hd. reflexivity.
  - apply (proj2 (@exists_true_and_false_cases disk get_storage_class
                    (storage [IStr "inmemory"; IStr "filesystem"] false)
                    "nope.txt" (start disk0))).
    simpl. repeat constructor.
Defined.

(** C6: the first backend cannot answer [exists]; the second has the file
    and a URL for it.  [url] does not skip the first backend: it raises the
    exception of its [exists]. *)
Lemma url_does_not_skip_raising_exists :
  (exists backend_exists,
      b_exists (get_storage_class (IStr "flaky")) = Some backend_exists
      /\ backend_exists "foo.txt" disk0 = (Raise cannot_stat, disk0)) /\
  url get_storage_class (storage [IStr "filesystem"] false) "foo.txt"
    (start disk0) = (Return "/media/foo.txt", start disk0) /\
  url get_storage_class (storage [IStr "flaky"; IStr "filesystem"] false)
    "foo.txt" (start disk0) = (Raise cannot_stat, start disk0).
Proof.
  split; [eexists; split; reflexivity|]. split; reflexivity.
Qed.

(** C6, as the code has it, at work: the primary is skipped (the file is
    not there), the second backend's [exists] raises. *)
Lemma url_exists_failure_example :
  url get_storage_class
    (storage [IStr "inmemory"; IStr "flaky"; IStr "filesystem"] false)
    "foo.txt" (start disk0)
  = (Raise cannot_stat, start disk0).
Proof.
  apply (@url_exists_failure_propagates disk get_storage_class
           (storage [IStr "inmemory"; IStr "flaky"; IStr "filesystem"] false)
           "foo.txt" [IStr "inmemory"] [IStr "filesystem"] (IStr "flaky")
           (mem_url "http://www.example.com/media/")
           (fun _ w => (Raise cannot_stat, w))
           [] cannot_stat disk0 (start disk0) (start disk0)).
  - reflexivity.
  - reflexivity.
  - reflexivity.
  - reflexivity.
  - reflexivity.
  - reflexivity.
Defined.

(** C10 at work: no backend has the name, and the last backend's [url]
    raises an error that is not an [AttributeError]. *)
Lemma url_terminal_fallback_example :
  url get_storage_class (storage [IStr "inmemory"; IStr "nolink"] false)
    "nope.txt" (start disk0)
  = (Raise (down "signing failed"), start disk0).
Proof.
  destruct (@url_terminal_fallback disk get_storage_class
              (storage [IStr "inmemory"; IStr "nolink"] false) "nope.txt"
              (IStr "nolink") (start disk0) (start disk0))
    as (_ & _ & _ & Hother).
  - reflexivity.
  - reflexivity.
  - reflexivity.
  - apply (Hother (fun _ w => (Raise (down "signing failed"), w))
             (down "signing failed") disk0).
    + reflexivity.
    + reflexivity.
    + discriminate.
Defined.

(** C2.  What the code does where the claim expects the content to be
    saved into the primary backend: in migration mode, with a primary
    backend that can store but has no [open] and the name held only by the
    second backend, [enumerate] hands that backend out at position 0, the
    test [i > 0] fails, and [open(name, 'rb')] returns the second backend's
    own file without calling [save]: nothing is written to the primary,
    nothing is logged. *)
Lemma open_without_promotion :
  in_data_migration (storage [IStr "dropbox"; IStr "filesystem"] true) = true /\
  mem_exists 0 "foo.txt" disk0 = (Return false, disk0) /\
  mem_exists 1 "foo.txt" disk0 = (Return true, disk0) /\
  (exists read,
      fst (open get_storage_class (storage [IStr "dropbox"; IStr "filesystem"] true)
             "foo.txt" "rb" (start disk0))
      = Return (Some (BackendFile "foo.txt" true read))
      /\ read disk0 = (Return "test-foo", disk0)) /\
  snd (open get_storage_class (storage [IStr "dropbox"; IStr "filesystem"] true)
         "foo.txt" "rb" (start disk0))
  = start disk0.
Proof.
  repeat split. eexists. split; reflexivity.
Qed.

(** The promoting read at work: the scenario of the migration test.  The
    primary has [open] and does not find foo.txt, the second backend has it;
    afterwards the primary has it too. *)
Lemma open_migration_example :
  open get_storage_class (storage [IStr "inmemory"; IStr "filesystem"] true)
    "foo.txt" "rb" (start disk0)
  = (Return (Some (ContentFile "test-foo" "foo.txt")),
     start ([("foo.txt", "test-foo"); ("bar.txt", "test-bar")],
            [("foo.txt", "test-foo")])).
Proof.
  destruct (@open_migration_promotes disk get_storage_class
              (storage [IStr "inmemory"; IStr "filesystem"] true) "foo.txt"
              [(IStr "inmemory", mem_open 0)] []
              (IStr "filesystem") (IStr "inmemory") [IStr "filesystem"]
              (mem_open 1)
              [(IStr "inmemory", Raise (not_there "foo.txt"))]
              (BackendFile "foo.txt" true (fun w => (Return "test-foo", w)))
              "test-foo" disk0 disk0 disk0 (start disk0))
    as (_ & Hsaved & _ & _).
  - reflexivity.
  - reflexivity.
  - reflexivity.
  - discriminate.
  - reflexivity.
  - repeat constructor.
  - reflexivity.
  - reflexivity.
  - reflexivity.
  - apply (Hsaved (mem_save 0) "foo.txt").
    + reflexivity.
    + reflexivity.
Defined.

(** The same read when the primary refuses the write: same value for the
    caller, one line in the log. *)
Lemma open_migration_failed_promotion_example :
  open get_storage_class (storage [IStr "readonly"; IStr "filesystem"] true)
    "foo.txt" "rb" (start disk0)
  = (Return (Some (ContentFile "test-foo" "foo.txt")),
     mk_state disk0 [promotion_failed "foo.txt"]).
Proof. reflexivity. Qed.

(** ** More runs on the concrete backends *)

(** X1 at work: the only backend has no [size]. *)
Lemma size_without_support_example :
  size get_storage_class (storage [IStr "dropbox"] false) "foo.txt" (start disk0)
  = (Raise (mk_exn AttributeError "No backend has the method `size`"),
     start disk0).
Proof.
  unfold size.
  apply (@fallback_without_capable_backend disk get_storage_class _ _ "size"
           (@b_size disk) (storage [IStr "dropbox"] false)
           (fun m => m "foo.txt") (start disk0)).
  intros k [<-|[]]. reflexivity.
Defined.

(** X3 at work: two stores list their files, the backend between them is
    down. *)
Lemma listdir_union_example :
  listdir get_storage_class
    (storage [IStr "inmemory"; IStr "a"; IStr "filesystem"] false) ""
    (start disk0)
  = (Return ([], ["bar.txt"; "foo.txt"]), start disk0).
Proof.
  apply (@listdir_returns_the_union disk get_storage_class
           (storage [IStr "inmemory"; IStr "a"; IStr "filesystem"] false) ""
           (start disk0)
           [(IStr "inmemory", Return ([], ["bar.txt"]));
            (IStr "a", Raise (down "x"));
            (IStr "filesystem", Return ([], ["foo.txt"]))]
           disk0).
  - reflexivity.
  - right. right. reflexivity.
Defined.

(** X4 at work: an empty store and a backend that is down. *)
Lemma listdir_empty_and_down_example :
  listdir get_storage_class (storage [IStr "inmemory"; IStr "a"] false) ""
    (start empty_disk)
  = (Raise (KeyError_of (IInt 0)), start empty_disk).
Proof.
  rewrite (@listdir_failure_beats_empty_answers disk get_storage_class
             (storage [IStr "inmemory"; IStr "a"] false) "" (start empty_disk)
             [(IStr "inmemory", Return ([], [])); (IStr "a", Raise (down "x"))]
             empty_disk).
  - reflexivity.
  - reflexivity.
  - discriminate.
  - reflexivity.
  - reflexivity.
Defined.

(** X5 at work: the store does not have the name, the other backend is
    down. *)
Lemma exists_with_backend_down_example :
  exists_ get_storage_class (storage [IStr "inmemory"; IStr "a"] false)
    "nope.txt" (start disk0)
  = (Raise (KeyError_of (IInt 0)), start disk0).
Proof.
  rewrite (@exists_surfaces_failures disk get_storage_class
             (storage [IStr "inmemory"; IStr "a"] false) "nope.txt"
             (start disk0)
             [(IStr "inmemory", Return false); (IStr "a", Raise (down "x"))]
             disk0).
  - reflexivity.
  - reflexivity.
  - intros H. inversion H as [? ? Hhd|? ? Htl]; subst; [discriminate Hhd|].
    inversion Htl as [? ? Hhd|? ? Htl']; subst; [discriminate Hhd|].
    inversion Htl'.
  - discriminate.
Defined.

(** X6 at work: two backends are down, the third has no [delete]. *)
Lemma delete_two_of_three_example :
  delete get_storage_class
    (storage [IStr "b"; IStr "a"; IStr "readonly"] false) "foo.txt"
    (start disk0)
  = (Raise (mk_exn PlainException ("y: b" ++ newline ++ "x: a")), start disk0).
Proof.
  unfold delete.
  apply (proj1 (@fallback_aggregate_message disk get_storage_class _ _ "delete"
                  (@b_delete disk)
                  (storage [IStr "b"; IStr "a"; IStr "readonly"] false)
                  (fun m => m "foo.txt") (start disk0)
                  [(IStr "b", Raise (down "y")); (IStr "a", Raise (down "x"))]
                  disk0 eq_refl
                  ltac:(repeat constructor; eexists; reflexivity)
                  ltac:(repeat constructor; simpl; intuition discriminate)
                  ltac:(simpl; lia))).
Defined.

(** X7 at work: the primary does not have the name, the second store has
    it. *)
Lemma url_first_hit_example :
  url get_storage_class (storage [IStr "inmemory"; IStr "filesystem"] false)
    "foo.txt" (start disk0)
  = (Return "/media/foo.txt", start disk0).
Proof.
  apply (@url_first_hit disk get_storage_class
           (storage [IStr "inmemory"; IStr "filesystem"] false) "foo.txt"
           [IStr "inmemory"] [] (IStr "filesystem")
           (mem_url "/media/") (mem_exists 1) [] "/media/foo.txt"
           disk0 disk0 disk0 (start disk0)).
  - reflexivity.
  - reflexivity.
  - cbn [map]. eapply url_scan_absent;
      [reflexivity | reflexivity | reflexivity | constructor].
  - reflexivity.
  - reflexivity.
  - reflexivity.
  - reflexivity.
Defined.

(** X8 at work: a name neither store has. *)
Lemma url_unfound_name_example :
  url get_storage_class (storage [IStr "inmemory"; IStr "filesystem"] true)
    "nope.txt" (start disk0)
  = (Return "http://www.example.com/media/nope.txt", start disk0)
  /\ url get_storage_class (storage [IStr "inmemory"; IStr "filesystem"] false)
       "nope.txt" (start disk0)
     = (Return "/media/nope.txt", start disk0).
Proof.
  apply (@url_of_unfound_name_depends_on_mode disk get_storage_class
           [IStr "inmemory"; IStr "filesystem"] "nope.txt"
           (IStr "inmemory") (IStr "filesystem")
           [(IStr "filesystem", mem_url "/media/")]
           (mem_url "http://www.example.com/media/") (mem_url "/media/")
           "http://www.example.com/media/nope.txt" "/media/nope.txt"
           disk0 disk0 disk0 (start disk0)).
  - reflexivity.
  - reflexivity.
  - cbn [map]. eapply url_scan_absent;
      [reflexivity | reflexivity | reflexivity |].
    eapply url_scan_absent;
      [reflexivity | reflexivity | reflexivity | constructor].
  - reflexivity.
  - reflexivity.
  - reflexivity.
Defined.

(** X9 at work: a facade built from an empty list. *)
Lemma url_without_backends_example :
  url get_storage_class (storage [] false) "foo.txt" (start disk0)
  = (Raise (mk_exn IndexError "list index out of range"), start disk0).
Proof.
  destruct (@facade_without_backends disk get_storage_class (storage [] false)
              "foo.txt" "rb" (start disk0) eq_refl)
    as (_ & _ & _ & Hurl & _).
  exact Hurl.
Defined.

(** X10 at work: the primary has the name; nothing is copied. *)
Lemma open_from_primary_example :
  open get_storage_class (storage [IStr "inmemory"; IStr "filesystem"] true)
    "bar.txt" "rb" (start disk0)
  = (Return (Some (BackendFile "bar.txt" true (fun w => (Return "test-bar", w)))),
     start disk0).
Proof.
  apply (@open_first_backend_answers disk get_storage_class
           (storage [IStr "inmemory"; IStr "filesystem"] true) "bar.txt" "rb"
           (IStr "inmemory") (mem_open 0) [(IStr "filesystem", mem_open 1)]
           (BackendFile "bar.txt" true (fun w => (Return "test-bar", w)))
           disk0 (start disk0)).
  - reflexivity.
  - reflexivity.
  - reflexivity.
  - reflexivity.
Defined.

(** X11 at work: the primary does not have the name, the second backend
    hands out a file that cannot be read, the third has the content; mode
    'br'. *)
Lemma open_after_unreadable_example :
  open get_storage_class'
    (storage [IStr "inmemory"; IStr "scratched"; IStr "filesystem"] true)
    "foo.txt" "br" (start disk0)
  = (Return (Some (ContentFile "test-foo" "foo.txt")),
     start ([("foo.txt", "test-foo"); ("bar.txt", "test-bar")],
            [("foo.txt", "test-foo")])).
Proof.
  apply (@open_promotes_after_failures disk get_storage_class'
           (storage [IStr "inmemory"; IStr "scratched"; IStr "filesystem"] true)
           "foo.txt" "br"
           [(IStr "inmemory", mem_open 0);
            (IStr "scratched",
             fun name _ w =>
               (Return (Some (BackendFile name true
                                (fun w' => (Raise scratched, w')))), w))]
           [] (IStr "filesystem") (mem_open 1)
           [(IStr "inmemory", not_there "foo.txt"); (IStr "scratched", scratched)]
           (BackendFile "foo.txt" true (fun w => (Return "test-foo", w)))
           "test-foo" disk0 disk0 disk0 (start disk0)).
  - reflexivity.
  - right. reflexivity.
  - reflexivity.
  - discriminate.
  - eapply open_scan_raised; [reflexivity|].
    eapply open_scan_unreadable;
      [reflexivity | lia | right; reflexivity | reflexivity | reflexivity
      | reflexivity | constructor].
  - reflexivity.
  - reflexivity.
  - reflexivity.
Defined.

(** X12 at work: text mode; the second store is asked twice and its second
    file is what goes into the primary. *)
Lemma open_text_mode_example :
  open get_storage_class (storage [IStr "inmemory"; IStr "filesystem"] true)
    "foo.txt" "r" (start disk0)
  = (Return (Some (BackendFile "foo.txt" true (fun w => (Return "test-foo", w)))),
     start ([("foo.txt", "test-foo"); ("bar.txt", "test-bar")],
            [("foo.txt", "test-foo")])).
Proof.
  destruct (@open_other_mode_refetches disk get_storage_class
              (storage [IStr "inmemory"; IStr "filesystem"] true)
              "foo.txt" "r"
              [(IStr "inmemory", mem_open 0)] [] (IStr "filesystem") (mem_open 1)
              [(IStr "inmemory", not_there "foo.txt")]
              (BackendFile "foo.txt" true (fun w => (Return "test-foo", w)))
              disk0 disk0 (start disk0))
    as (Hsecond & _ & _).
  - reflexivity.
  - discriminate.
  - discriminate.
  - reflexivity.
  - discriminate.
  - eapply open_scan_raised; [reflexivity|constructor].
  - reflexivity.
  - reflexivity.
  - apply (Hsecond
             (BackendFile "foo.txt" true (fun w => (Return "test-foo", w)))
             disk0).
    + reflexivity.
    + reflexivity.
Defined.

(** X13 at work: a store that answers [None] for a name it does not have,
    then a backend that answers with a false file: the false file is what
    [open] returns. *)
Lemma open_nothing_found_example :
  open get_storage_class'' (storage [IStr "quiet0"; IStr "blank"] true)
    "nope.txt" "rb" (start disk0)
  = (Return (Some blank_file), start disk0).
Proof.
  apply (@open_finds_nothing disk get_storage_class''
           (storage [IStr "quiet0"; IStr "blank"] true) "nope.txt" "rb"
           [(IStr "quiet0", Return None); (IStr "blank", Return (Some blank_file))]
           disk0 (start disk0)).
  - reflexivity.
  - reflexivity.
  - repeat constructor; eexists; split; reflexivity.
Defined.
